(** * Code Maat wrapper: a shallow embedding of [code_maat_wrapper.py]

    The development follows the Python module top to bottom.  Python text is
    modelled as [string], one [ascii] per code point, which covers text whose
    code points lie below 256; every classification of characters below
    (white space, decimal digits) is the one CPython makes on that range. *)

From Stdlib Require Import ZArith List String Ascii Bool Lia.
From stdpp Require Import base option list strings gmap.

Local Open Scope string_scope.
Local Open Scope list_scope.
Local Open Scope Z_scope.

(** ** Python text *)

Module PyStr.

Definition ord (c : ascii) : nat := nat_of_ascii c.

(** White space that [int()] and [float()] skip: the six C-locale blanks,
    and the two blanks above 127 (NEL, NBSP), which CPython turns into a
    plain space before parsing. *)
Definition is_numeric_space (c : ascii) : bool :=
  let n := ord c in
  ((9 <=? n) && (n <=? 13) || (n =? 32) || (n =? 133) || (n =? 160))%nat.

(** White space in the sense of [str.isspace] and [str.strip]: the former
    plus the four separators FS, GS, RS and US. *)
Definition is_space (c : ascii) : bool :=
  let n := ord c in
  (is_numeric_space c || (28 <=? n) && (n <=? 31))%nat.

Definition is_digit (c : ascii) : bool :=
  let n := ord c in ((48 <=? n) && (n <=? 57))%nat.

Definition digit_value (c : ascii) : Z := Z.of_nat (ord c - 48).

Definition is_empty (s : string) : bool :=
  match s with "" => true | _ => false end.

Fixpoint lstrip_by (sp : ascii -> bool) (s : string) : string :=
  match s with
  | "" => ""
  | String c r => if sp c then lstrip_by sp r else s
  end.

Fixpoint rstrip_by (sp : ascii -> bool) (s : string) : string :=
  match s with
  | "" => ""
  | String c r =>
      let r' := rstrip_by sp r in
      if sp c && is_empty r' then "" else String c r'
  end.

Definition strip_by (sp : ascii -> bool) (s : string) : string :=
  rstrip_by sp (lstrip_by sp s).

(** [str.strip()] *)
Definition strip : string -> string := strip_by is_space.

(** [sep.join(items)] *)
Fixpoint join (sep : string) (items : list string) : string :=
  match items with
  | [] => ""
  | [x] => x
  | x :: rest => x +:+ sep +:+ join sep rest
  end.

(** [s.startswith(p)] *)
Fixpoint startswith (s p : string) {struct p} : bool :=
  match p with
  | "" => true
  | String a p' =>
      match s with
      | String b s' => (a =? b)%char && startswith s' p'
      | "" => false
      end
  end.

Definition lower (c : ascii) : ascii :=
  let n := ord c in
  if ((65 <=? n) && (n <=? 90))%nat then ascii_of_nat (n + 32) else c.

Fixpoint lower_str (s : string) : string :=
  match s with
  | "" => ""
  | String c r => String (lower c) (lower_str r)
  end.

(** Decimal digits of a natural number, most significant first. *)
Fixpoint digits_of_pos (fuel : nat) (n : N) (acc : string) : string :=
  match fuel with
  | O => acc
  | S fuel' =>
      let d := ascii_of_N (48 + n mod 10) in
      let q := (n / 10)%N in
      if (q =? 0)%N then String d acc else digits_of_pos fuel' q (String d acc)
  end.

Definition str_of_N (n : N) : string :=
  digits_of_pos (S (N.to_nat (N.log2 n))) n "".

(** [str(n)] for an [int]. *)
Definition str_of_int (z : Z) : string :=
  match z with
  | Z0 => "0"
  | Zpos p => str_of_N (Npos p)
  | Zneg p => "-" +:+ str_of_N (Npos p)
  end.

End PyStr.

(** ** [int(str)] and [float(str)] *)

Module PyNum.
Import PyStr.

(** [sys.get_int_max_str_digits()], at its default. *)
Definition int_max_str_digits : nat := 4300.

(** The digit loop of [int()]: digits, with single underscores allowed
    between two digits.  [seen] counts the digits read so far. *)
Fixpoint int_digits (after_underscore : bool) (seen : nat) (acc : Z)
         (s : string) : option (nat * Z) :=
  match s with
  | "" => if after_underscore then None else Some (seen, acc)
  | String c r =>
      if is_digit c then int_digits false (S seen) (acc * 10 + digit_value c) r
      else if (c =? "_")%char
           then (if after_underscore then None else int_digits true seen acc r)
           else None
  end.

Definition split_sign (s : string) : bool * string :=
  match s with
  | String "-" r => (true, r)
  | String "+" r => (false, r)
  | _ => (false, s)
  end.

(** [int(s)] for a [str]; [None] stands for [ValueError]. *)
Definition py_int (s : string) : option Z :=
  let '(neg, body) := split_sign (strip_by is_numeric_space s) in
  match body with
  | "" => None
  | String c _ =>
      if is_digit c then
        match int_digits false 0 0 body with
        | Some (seen, n) =>
            if (int_max_str_digits <? seen)%nat then None
            else Some (if neg then - n else n)
        | None => None
        end
      else None
  end.

(** A Python [float], kept as the decimal numeral it was read from: the
    value is the binary64 number nearest to [(-1)^neg * mant * 10^exp10]. *)
Inductive pyfloat :=
| FNan
| FInf (neg : bool)
| FDec (neg : bool) (mant : N) (exp10 : Z).

(** Underscores of a numeric literal: legal only between two digits, and
    dropped before the number is read. *)
Fixpoint drop_underscores (prev : option ascii) (s : string) : option string :=
  match s with
  | "" => match prev with
          | Some "_"%char => None
          | _ => Some ""
          end
  | String c r =>
      let prev_digit := match prev with Some p => is_digit p | None => false end in
      let prev_us := match prev with Some "_"%char => true | _ => false end in
      if (c =? "_")%char then
        if prev_digit then drop_underscores (Some c) r else None
      else if prev_us && negb (is_digit c) then None
      else option_map (String c) (drop_underscores (Some c) r)
  end.

(** A maximal run of decimal digits: its value, its length, the rest. *)
Fixpoint take_digits (acc : N) (count : nat) (s : string) : N * nat * string :=
  match s with
  | String c r =>
      if is_digit c
      then take_digits (acc * 10 + N.of_nat (ord c - 48)) (S count) r
      else (acc, count, s)
  | "" => (acc, count, s)
  end.

Definition parse_inf_or_nan (neg : bool) (body : string) : option pyfloat :=
  let l := lower_str body in
  if (l =? "inf")%string || (l =? "infinity")%string then Some (FInf neg)
  else if (l =? "nan")%string then Some FNan
  else None.

(** The exponent part, which must run to the end of the text. *)
Definition parse_exponent (s : string) : option Z :=
  match s with
  | "" => Some 0
  | String c r =>
      if (c =? "e")%char || (c =? "E")%char then
        let '(eneg, ebody) := split_sign r in
        match take_digits 0 0 ebody with
        | (_, O, _) => None
        | (e, _, "") => Some (if eneg then - Z.of_N e else Z.of_N e)
        | _ => None
        end
      else None
  end.

Definition parse_decimal (neg : bool) (body : string) : option pyfloat :=
  let '(ip, ni, after_int) := take_digits 0 0 body in
  let '(mant, nf, after_frac) :=
    match after_int with
    | String "." r => take_digits ip 0 r
    | _ => (ip, O, after_int)
    end in
  if ((ni + nf)%nat =? 0)%nat then None
  else match parse_exponent after_frac with
       | Some e => Some (FDec neg mant (e - Z.of_nat nf))
       | None => None
       end.

(** [float(s)] for a [str]; [None] stands for [ValueError]. *)
Definition py_float (s : string) : option pyfloat :=
  match drop_underscores None s with
  | None => None
  | Some t =>
      let '(neg, body) := split_sign (strip_by is_numeric_space t) in
      match parse_decimal neg body with
      | Some f => Some f
      | None => parse_inf_or_nan neg body
      end
  end.

End PyNum.

(** ** Exceptions and their text *)

Inductive pyexn :=
| CodeMaatError (msg : string)
| FileNotFoundError (filename : string)
| IsADirectoryError (filename : string)
| PermissionError (filename : string)
| JSONDecodeError
| CalledProcessError (returncode : Z) (cmd : list string) (output stderr : string)
| TimeoutExpired (cmd : list string) (timeout : N)
| CsvError (msg : string)
| AttributeError (msg : string).

(** [str(e)], as the f-strings of the module use it.  Only the two
    exceptions that reach such an f-string carry their text. *)
Definition exn_str (e : pyexn) : string :=
  match e with
  | CodeMaatError msg | CsvError msg | AttributeError msg => msg
  | _ => ""
  end.

(** A computation without side effects that may raise. *)
Inductive result (A : Type) :=
| Ok (a : A)
| Raise (e : pyexn).
Arguments Ok {A} a.
Arguments Raise {A} e.

Definition rbind {A B} (m : result A) (k : A -> result B) : result B :=
  match m with
  | Ok a => k a
  | Raise e => Raise e
  end.

(** ** Insertion-ordered dictionaries *)

Module Dict.
Section Dict.
Context {K V : Type} `{EqDecision K}.

(** A [dict] as the list of its items in insertion order. *)
Definition dict := list (K * V).

Fixpoint get (k : K) (d : dict) : option V :=
  match d with
  | [] => None
  | (k', v) :: r => if decide (k = k') then Some v else get k r
  end.

(** [d[k] = v]: an existing key keeps its position. *)
Fixpoint set (k : K) (v : V) (d : dict) : dict :=
  match d with
  | [] => [(k, v)]
  | (k', v') :: r =>
      if decide (k = k') then (k, v) :: r else (k', v') :: set k v r
  end.

Definition keys (d : dict) : list K := map fst d.

(** [dict(pairs)] *)
Definition of_pairs (pairs : list (K * V)) : dict :=
  fold_left (fun d kv => set (fst kv) (snd kv) d) pairs [].
End Dict.
Arguments dict : clear implicits.
End Dict.

(** ** The [csv] module, at the default (excel) dialect *)

Module Csv.

(** Iterating [io.StringIO(text)]: lines end at a line feed, which they
    keep. *)
Fixpoint readlines (s : string) : list string :=
  match s with
  | "" => []
  | String c r =>
      if (c =? "010")%char then String c "" :: readlines r
      else match readlines r with
           | [] => [String c ""]
           | l :: ls => String c l :: ls
           end
  end.

(** The states the excel dialect can reach (it has no escape character). *)
Inductive parser_state :=
| START_RECORD | START_FIELD | IN_FIELD
| IN_QUOTED_FIELD | QUOTE_IN_QUOTED_FIELD | EAT_CRNL.

Record reader := {
  state : parser_state;
  fields : list string;
  field : string;
  field_len : N
}.

Definition field_limit : N := 131072.
Definition delimiter : ascii := ",".
Definition quotechar : ascii := "034".

Definition parse_reset : reader :=
  {| state := START_RECORD; fields := []; field := ""; field_len := 0 |}.

Definition set_state (st : parser_state) (r : reader) : reader :=
  {| state := st; fields := fields r; field := field r; field_len := field_len r |}.

Definition parse_save_field (r : reader) : reader :=
  {| state := state r; fields := fields r ++ [field r]; field := ""; field_len := 0 |}.

Definition parse_add_char (c : ascii) (r : reader) : string + reader :=
  if (field_limit <=? field_len r)%N
  then inl "field larger than field limit (131072)"
  else inr {| state := state r; fields := fields r;
              field := field r +:+ String c ""; field_len := N.succ (field_len r) |}.

Definition is_newline (c : ascii) : bool := (c =? "010")%char || (c =? "013")%char.

Definition after_line_end (c : option ascii) : parser_state :=
  match c with None => START_RECORD | Some _ => EAT_CRNL end.

Definition ends_line (c : option ascii) : bool :=
  match c with None => true | Some c => is_newline c end.

(** One step of the reader; [None] is the end-of-line signal sent after
    the last character of each line. *)
Definition parse_process_char (r : reader) (c : option ascii) : string + reader :=
  let start_field (r : reader) :=
    if ends_line c then inr (set_state (after_line_end c) (parse_save_field r))
    else match c with
         | Some ch =>
             if (ch =? quotechar)%char then inr (set_state IN_QUOTED_FIELD r)
             else if (ch =? delimiter)%char then inr (parse_save_field r)
             else match parse_add_char ch r with
                  | inr r' => inr (set_state IN_FIELD r')
                  | inl e => inl e
                  end
         | None => inr r
         end in
  match state r with
  | START_RECORD =>
      match c with
      | None => inr r
      | Some ch =>
          if is_newline ch then inr (set_state EAT_CRNL r)
          else start_field (set_state START_FIELD r)
      end
  | START_FIELD => start_field r
  | IN_FIELD =>
      if ends_line c then inr (set_state (after_line_end c) (parse_save_field r))
      else match c with
           | Some ch =>
               if (ch =? delimiter)%char
               then inr (set_state START_FIELD (parse_save_field r))
               else parse_add_char ch r
           | None => inr r
           end
  | IN_QUOTED_FIELD =>
      match c with
      | None => inr r
      | Some ch =>
          if (ch =? quotechar)%char then inr (set_state QUOTE_IN_QUOTED_FIELD r)
          else parse_add_char ch r
      end
  | QUOTE_IN_QUOTED_FIELD =>
      match c with
      | Some ch =>
          if (ch =? quotechar)%char then
            match parse_add_char ch r with
            | inr r' => inr (set_state IN_QUOTED_FIELD r')
            | inl e => inl e
            end
          else if (ch =? delimiter)%char
          then inr (set_state START_FIELD (parse_save_field r))
          else if is_newline ch
          then inr (set_state EAT_CRNL (parse_save_field r))
          else match parse_add_char ch r with
               | inr r' => inr (set_state IN_FIELD r')
               | inl e => inl e
               end
      | None => inr (set_state START_RECORD (parse_save_field r))
      end
  | EAT_CRNL =>
      match c with
      | None => inr (set_state START_RECORD r)
      | Some ch =>
          if is_newline ch then inr r
          else inl "new-line character seen in unquoted field - do you need to open the file with newline=''?"
      end
  end.

Fixpoint process_chars (r : reader) (line : string) : string + reader :=
  match line with
  | "" => parse_process_char r None
  | String c rest =>
      match parse_process_char r (Some c) with
      | inr r' => process_chars r' rest
      | inl e => inl e
      end
  end.

Definition at_start_record (r : reader) : bool :=
  match state r with START_RECORD => true | _ => false end.

Definition in_quoted_field (r : reader) : bool :=
  match state r with IN_QUOTED_FIELD => true | _ => false end.

(** Everything [csv.reader(lines)] yields, in order, and the error that
    ends the iteration, if one does. *)
Fixpoint read_rows (r : reader) (lines : list string)
  : list (list string) * option string :=
  match lines with
  | [] =>
      if negb (field_len r =? 0)%N || in_quoted_field r
      then ([fields (parse_save_field r)], None)
      else ([], None)
  | line :: rest =>
      match process_chars r line with
      | inl e => ([], Some e)
      | inr r' =>
          if at_start_record r' then
            let '(rows, e) := read_rows parse_reset rest in
            (fields r' :: rows, e)
          else read_rows r' rest
      end
  end.

Definition read (text : string) : list (list string) * option string :=
  read_rows parse_reset (readlines text).

(** What a [DictReader] row holds under a key: a field, [restval]
    ([None]) for a missing field, or the list of surplus fields. *)
Inductive row_value :=
| RStr (s : string)
| RNone
| RList (l : list string).

Definition is_blank (row : list string) : bool :=
  match row with [] => true | _ => false end.

(** The dictionary [DictReader.__next__] builds from one non-blank row;
    the surplus fields of a long row go under [restkey], which is [None]. *)
Definition dict_row (fieldnames row : list string)
  : Dict.dict (option string) row_value :=
  let d := Dict.of_pairs (zip (map Some fieldnames) (map RStr row)) in
  let lf := length fieldnames in
  let lr := length row in
  if (lf <? lr)%nat then Dict.set None (RList (drop lf row)) d
  else if (lr <? lf)%nat
  then fold_left (fun d key => Dict.set (Some key) RNone d) (drop lr fieldnames) d
  else d.

End Csv.

(** ** [posixpath] and [pathlib], without symbolic links *)

Module PosixPath.
Import PyStr.

Definition is_slash (c : ascii) : bool := (c =? "/")%char.

(** [s.split("/")] *)
Fixpoint split_slash (s : string) : list string :=
  match s with
  | "" => [""]
  | String c r =>
      if is_slash c then "" :: split_slash r
      else match split_slash r with
           | [] => [String c ""]
           | x :: xs => String c x :: xs
           end
  end.

Fixpoint leading_slashes (s : string) : nat :=
  match s with
  | String c r => if is_slash c then S (leading_slashes r) else O
  | "" => O
  end.

(** A [PurePosixPath]: its root and its components. *)
Record path := { root : string; parts : list string }.

Definition is_component (p : string) : bool :=
  negb (is_empty p) && negb (p =? ".")%string.

(** [Path(s)] *)
Definition of_str (s : string) : path :=
  {| root := match leading_slashes s with
             | O => ""
             | 2%nat => "//"
             | _ => "/"
             end;
     parts := List.filter is_component (split_slash s) |}.

(** [str(p)] *)
Definition to_str (p : path) : string :=
  if is_empty (root p) && bool_decide (parts p = []) then "."
  else root p +:+ join "/" (parts p).

Definition is_absolute (p : path) : bool := negb (is_empty (root p)).

(** [a / b] *)
Definition joinpath (a b : path) : path :=
  if is_absolute b then b
  else {| root := root a; parts := parts a ++ parts b |}.

(** [p.parent] *)
Definition parent (p : path) : path :=
  {| root := root p; parts := removelast (parts p) |}.

(** Folding [..] components into the ones before them. *)
Fixpoint collapse (stack : list string) (ps : list string) : list string :=
  match ps with
  | [] => rev stack
  | p :: r =>
      if (p =? "..")%string then collapse (tl stack) r
      else collapse (p :: stack) r
  end.

(** [p.resolve()], in the working directory [cwd]. *)
Definition resolve (cwd : string) (p : path) : path :=
  if is_absolute p
  then {| root := root p; parts := collapse [] (parts p) |}
  else {| root := "/"; parts := collapse [] (parts (of_str cwd) ++ parts p) |}.

Fixpoint last_slash_prefix (s : string) : option string :=
  match s with
  | "" => None
  | String c r =>
      match last_slash_prefix r with
      | Some h => Some (String c h)
      | None => if is_slash c then Some (String c "") else None
      end
  end.

(** [os.path.dirname(s)] *)
Definition dirname (s : string) : string :=
  match last_slash_prefix s with
  | None => ""
  | Some head =>
      if is_empty (lstrip_by is_slash head) then head
      else rstrip_by is_slash head
  end.

Fixpoint ends_with_slash (s : string) : bool :=
  match s with
  | "" => false
  | String c "" => is_slash c
  | String _ r => ends_with_slash r
  end.

(** [os.path.join(a, b)] *)
Definition join2 (a b : string) : string :=
  match b with
  | String "/" _ => b
  | _ => if is_empty a || ends_with_slash a then a +:+ b else a +:+ "/" +:+ b
  end.

End PosixPath.

(** ** The machine the module runs on *)

Inductive fsnode :=
| File (text : string)
| Dir.

(** What a child process does once asked to run. *)
Inductive proc_behaviour :=
| Exits (seconds : N) (returncode : Z) (stdout stderr : string)
| Never_exits
| Cannot_start (e : pyexn).

(** The [code_maat] member of the configuration document. *)
Record code_maat_section := {
  sec_jar_path : option string;
  sec_java_executable : option string;
  sec_java_opts : option (list string)
}.

(** A configuration document: a JSON object, with or without a
    [code_maat] member.  Documents whose members carry other JSON types than
    the ones [CodeMaatConfig] declares lie outside the model. *)
Record config_document := { doc_code_maat : option code_maat_section }.

(** The fixed surroundings of a run. *)
Record host := {
  (** [__file__] of the module *)
  module_file : string;
  (** [os.getcwd()], an absolute path *)
  cwd : string;
  (** [json.loads]; [None] is [JSONDecodeError] *)
  json_loads : string -> option config_document;
  (** the behaviour of the child process started with these arguments in
      this working directory *)
  process : list string -> option string -> proc_behaviour;
  (** paths the operating system refuses to open *)
  denied : string -> bool;
  (** the order in which a [set] of strings is iterated *)
  set_order : list string -> list string
}.

Record invocation := {
  inv_args : list string;
  inv_cwd : option string;
  inv_timeout : option N
}.

(** The mutable part: the file system, and every call of [subprocess.run]
    made so far, latest last. *)
Record world := {
  fs : gmap string fsnode;
  invocations : list invocation
}.

(** ** Computations with effects *)

Inductive outcome (A : Type) :=
| Returned (a : A)
| Raised (e : pyexn)
| Blocked.
Arguments Returned {A} a.
Arguments Raised {A} e.
Arguments Blocked {A}.

Definition M (A : Type) : Type := world -> outcome A * world.

Definition ret {A} (a : A) : M A := fun w => (Returned a, w).

Definition raise {A} (e : pyexn) : M A := fun w => (Raised e, w).

Definition bind {A B} (m : M A) (k : A -> M B) : M B :=
  fun w =>
    match m w with
    | (Returned a, w') => k a w'
    | (Raised e, w') => (Raised e, w')
    | (Blocked, w') => (Blocked, w')
    end.

Notation "'let*' x ':=' m 'in' k" := (bind m (fun x => k))
  (at level 10, x pattern, m at level 100, k at level 200).

(** [try: m except ...: handler]; a handler answering [None] has no clause
    for the exception, which then propagates. *)
Definition try_except {A} (m : M A) (handler : pyexn -> option (M A)) : M A :=
  fun w =>
    match m w with
    | (Raised e, w') =>
        match handler e with
        | Some h => h w'
        | None => (Raised e, w')
        end
    | other => other
    end.

Definition lift {A} (r : result A) : M A :=
  match r with
  | Ok a => ret a
  | Raise e => raise e
  end.

Section Machine.
Context (h : host).

(** [os.path.exists(p)] and [Path.exists] *)
Definition path_exists (p : string) : M bool :=
  fun w => (Returned (bool_decide (is_Some (fs w !! p))), w).

(** [open(p, 'r')] followed by reading the whole file. *)
Definition read_text (p : string) : M string :=
  fun w =>
    match fs w !! p with
    | None => (Raised (FileNotFoundError p), w)
    | Some Dir => (Raised (IsADirectoryError p), w)
    | Some (File text) =>
        if denied h p then (Raised (PermissionError p), w)
        else (Returned text, w)
    end.

(** [open(p, 'w')] followed by one [write]. *)
Definition write_text (p : string) (text : string) : M unit :=
  fun w =>
    match fs w !! p with
    | Some Dir => (Raised (IsADirectoryError p), w)
    | _ =>
        if denied h p then (Raised (PermissionError p), w)
        else (Returned tt,
              {| fs := <[p := File text]> (fs w); invocations := invocations w |})
    end.

Record CompletedProcess := {
  returncode : Z;
  stdout : string;
  stderr : string
}.

(** [subprocess.run(args, cwd=cwd, capture_output=True, text=True,
    check=True, timeout=timeout)] *)
Definition subprocess_run (args : list string) (cwd : option string)
           (timeout : option N) : M CompletedProcess :=
  fun w =>
    let w' := {| fs := fs w;
                 invocations := invocations w ++
                   [{| inv_args := args; inv_cwd := cwd; inv_timeout := timeout |}] |} in
    let completed rc out err :=
      if (rc =? 0)%Z
      then (Returned {| returncode := rc; stdout := out; stderr := err |}, w')
      else (Raised (CalledProcessError rc args out err), w') in
    match process h args cwd, timeout with
    | Cannot_start e, _ => (Raised e, w')
    | Exits t rc out err, Some limit =>
        if (limit <? t)%N then (Raised (TimeoutExpired args limit), w')
        else completed rc out err
    | Exits t rc out err, None => completed rc out err
    | Never_exits, Some limit => (Raised (TimeoutExpired args limit), w')
    | Never_exits, None => (Blocked, w')
    end.

End Machine.

(** ** The module proper *)

Import PyStr PyNum.

(** The values a keyword argument may hold.  Of an object that is neither
    [None], a [bool], an [int] nor a [str], the module only ever takes
    [str(v)] and the truth value, so that is what [PObj] records. *)
Inductive param_value :=
| PNone
| PBool (b : bool)
| PInt (z : Z)
| PStr (s : string)
| PObj (text : string) (truth : bool).

(** [str(v)] *)
Definition py_str (v : param_value) : string :=
  match v with
  | PNone => "None"
  | PBool true => "True"
  | PBool false => "False"
  | PInt z => str_of_int z
  | PStr s => s
  | PObj text _ => text
  end.

(** [bool(v)] *)
Definition truthy (v : param_value) : bool :=
  match v with
  | PNone => false
  | PBool b => b
  | PInt z => negb (z =? 0)%Z
  | PStr s => negb (is_empty s)
  | PObj _ truth => truth
  end.

Definition is_None (v : param_value) : bool :=
  match v with PNone => true | _ => false end.

(** The values of a result record. *)
Inductive pyvalue :=
| PyNone
| PyInt (z : Z)
| PyFloat (f : pyfloat)
| PyStr (s : string).

Record CodeMaatConfig := {
  jar_path : string;
  java_executable : string;
  java_opts : list string
}.

Definition default_jar_path : string :=
  "../target/code-maat-1.0.5-SNAPSHOT-standalone.jar".

Definition default_java_opts : list string :=
  ["-Xmx4g"; "-Djava.awt.headless=true"; "-Xss512M"].

(** The dataclass constructor, defaults and [__post_init__] included. *)
Definition new_CodeMaatConfig (jar : string) (java : option string)
           (opts : option (list string)) : CodeMaatConfig :=
  {| jar_path := jar;
     java_executable := default "java" java;
     java_opts := default default_java_opts opts |}.

Record CodeMaatWrapper := { config : CodeMaatConfig }.

Definition SUPPORTED_VCS : gset string :=
  {[ "git"; "git2"; "svn"; "hg"; "p4"; "tfs" ]}.

Definition SUPPORTED_ANALYSES : gset string :=
  {[ "authors"; "revisions"; "coupling"; "soc"; "summary"; "identity";
     "abs-churn"; "author-churn"; "entity-churn"; "entity-ownership";
     "main-dev"; "refactoring-main-dev"; "entity-effort"; "main-dev-by-revs";
     "fragmentation"; "communication"; "messages"; "age" ]}.

Definition param_mapping : Dict.dict string string :=
  [ ("rows", "-r");
    ("group", "-g");
    ("team_map_file", "-p");
    ("min_revs", "-n");
    ("min_shared_revs", "-m");
    ("min_coupling", "-i");
    ("max_coupling", "-x");
    ("max_changeset_size", "-s");
    ("expression_to_match", "-e");
    ("temporal_period", "-t");
    ("age_time_now", "-d");
    ("input_encoding", "--input-encoding") ].

(** The body of the loop of [_add_optional_params]. *)
Definition add_param (cmd : list string) (item : string * param_value)
  : list string :=
  let '(param, value) := item in
  match Dict.get param param_mapping with
  | Some flag => if is_None value then cmd else cmd ++ [flag; py_str value]
  | None => cmd
  end.

Definition _add_optional_params (cmd : list string)
           (kwargs : Dict.dict string param_value) : list string :=
  let cmd := fold_left add_param kwargs cmd in
  if truthy (default PNone (Dict.get "verbose_results" kwargs))
  then cmd ++ ["--verbose-results"]
  else cmd.

Definition _convert_value (value : Csv.row_value) : result pyvalue :=
  match value with
  | Csv.RNone => Ok PyNone
  | Csv.RList [] => Ok PyNone
  | Csv.RList (_ :: _) =>
      Raise (AttributeError "'list' object has no attribute 'strip'")
  | Csv.RStr value =>
      if is_empty value || is_empty (strip value) then Ok PyNone
      else match py_int value with
           | Some n => Ok (PyInt n)
           | None =>
               match py_float value with
               | Some f => Ok (PyFloat f)
               | None => Ok (PyStr (strip value))
               end
           end
  end.

(** The inner loop of [_parse_csv_output]: the converted copy of one row. *)
Fixpoint convert_items (items : list (option string * Csv.row_value))
         (converted_row : Dict.dict (option string) pyvalue)
  : result (Dict.dict (option string) pyvalue) :=
  match items with
  | [] => Ok converted_row
  | (key, value) :: rest =>
      rbind (_convert_value value) (fun v =>
        convert_items rest (Dict.set key v converted_row))
  end.

(** The outer loop: the rows the reader yields, blank ones skipped, then
    the error that ended the reading, if any. *)
Fixpoint convert_rows (fieldnames : list string) (rows : list (list string))
         (err : option string)
         (results : list (Dict.dict (option string) pyvalue))
  : result (list (Dict.dict (option string) pyvalue)) :=
  match rows with
  | [] =>
      match err with
      | Some msg => Raise (CsvError msg)
      | None => Ok results
      end
  | row :: rest =>
      if Csv.is_blank row then convert_rows fieldnames rest err results
      else rbind (convert_items (Csv.dict_row fieldnames row) []) (fun converted_row =>
             convert_rows fieldnames rest err (results ++ [converted_row]))
  end.

(** The body of the [try] of [_parse_csv_output], on what the reader
    yields: the first row gives the field names. *)
Definition read_records (rows : list (list string)) (err : option string)
  : result (list (Dict.dict (option string) pyvalue)) :=
  match rows with
  | [] =>
      match err with
      | Some msg => Raise (CsvError msg)
      | None => Ok []
      end
  | fieldnames :: data => convert_rows fieldnames data err []
  end.

Definition _parse_csv_output (csv_output : string)
  : result (list (Dict.dict (option string) pyvalue)) :=
  if is_empty (strip csv_output) then Ok []
  else
    let '(rows, err) := Csv.read csv_output in
    match read_records rows err with
    | Ok results => Ok results
    | Raise e => Raise (CodeMaatError ("Failed to parse CSV output: " +:+ exn_str e))
    end.

(** The argument vector [generate_git_log] builds. *)
Definition git_log_cmd (format_type : string) (after_date : option string)
           (exclude_paths : option (list string)) : list string :=
  let cmd :=
    if (format_type =? "git2")%string
    then ["git"; "log"; "--all"; "--numstat"; "--date=short";
          "--pretty=format:--%h--%ad--%aN"; "--no-renames"]
    else ["git"; "log"; "--pretty=format:[%h] %aN %ad %s";
          "--date=short"; "--numstat"] in
  let cmd :=
    match after_date with
    | Some d => if is_empty d then cmd else cmd ++ ["--after=" +:+ d]
    | None => cmd
    end in
  match exclude_paths with
  | Some (p :: ps) =>
      cmd ++ ["--"; "."] ++ map (fun path => ":(exclude)" +:+ path) (p :: ps)
  | _ => cmd
  end.

(** The values of an analysis description. *)
Inductive info_value :=
| IStr (s : string)
| IList (l : list string).

Definition analysis_info : Dict.dict string (Dict.dict string info_value) :=
  [ ("authors",
     [ ("description", IStr "Number of authors per module and revision count");
       ("output_columns", IList ["entity"; "n-authors"; "n-revs"]);
       ("use_case", IStr "Identify modules with high communication overhead") ]);
    ("coupling",
     [ ("description",
        IStr "Logical coupling between modules that tend to change together");
       ("output_columns", IList ["entity"; "coupled"; "degree"; "average-revs"]);
       ("use_case", IStr "Find hidden dependencies and refactoring candidates") ]);
    ("summary",
     [ ("description", IStr "Overview statistics of the repository");
       ("output_columns", IList ["statistic"; "value"]);
       ("use_case", IStr "Get high-level metrics about the codebase") ]);
    ("churn",
     [ ("description", IStr "Code churn metrics showing change frequency");
       ("output_columns", IList ["entity"; "added"; "deleted"]);
       ("use_case", IStr "Identify unstable code areas") ]);
    ("age",
     [ ("description",
        IStr "Code age showing how long since modules were last changed");
       ("output_columns", IList ["entity"; "age-months"]);
       ("use_case", IStr "Find stable vs frequently changing code") ]) ].

Definition get_analysis_info (analysis : string) : Dict.dict string info_value :=
  default
    [ ("description", IStr ("Analysis type: " +:+ analysis));
      ("output_columns", IList ["varies"]);
      ("use_case", IStr "Refer to Code Maat documentation for details") ]
    (Dict.get analysis analysis_info).

(** ** The callers in [tools] *)

Definition is_empty_list {A} (l : list A) : bool :=
  match l with [] => true | _ => false end.

(** [s.count("--")]: occurrences counted from the left, without overlap. *)
Fixpoint count_double_dash (s : string) : nat :=
  match s with
  | String a r =>
      match r with
      | String b r' =>
          if (a =? "-")%char && (b =? "-")%char
          then S (count_double_dash r')
          else count_double_dash r
      | "" => O
      end
  | "" => O
  end.

(** [sub in s] *)
Fixpoint contains (s sub : string) : bool :=
  startswith s sub
  || match s with
     | "" => false
     | String _ r => contains r sub
     end.

(** The pictograph that opens a message of [_validate_log_format]; the
    text after it is kept as it is. *)
Inductive mark := CrossMark | CheckMark | WarningSign | InfoSign.

Definition _validate_log_format (lines : list string) (vcs : string)
  : mark * string :=
  if is_empty_list lines || forallb is_empty lines
  then (CrossMark, " File appears to be empty or unreadable")
  else if (vcs =? "git2")%string then
    if existsb (fun line => startswith line "--" && (3 <=? count_double_dash line)%nat)
               lines
    then (CheckMark, " Git2 format detected")
    else (WarningSign,
          "  Git2 format not detected. Expected lines starting with '--hash--date--author'")
  else if (vcs =? "git")%string then
    if existsb (fun line => startswith line "[" && contains line "]") lines
    then (CheckMark, " Git format detected")
    else (WarningSign,
          "  Git format not detected. Expected lines starting with '[hash] author date'")
  else if (vcs =? "svn")%string then
    if existsb (fun line => contains line "<?xml" || contains line "<log>") lines
    then (CheckMark, " SVN XML format detected")
    else (WarningSign, "  SVN XML format not detected. Expected XML structure")
  else (InfoSign, "  Basic validation passed for " +:+ vcs +:+ " format").

(** The keyword arguments [run_coupling_analysis] passes on. *)
Definition coupling_kwargs (arguments : Dict.dict string param_value)
  : Dict.dict string param_value :=
  [ ("min_coupling", default (PInt 30) (Dict.get "min_coupling" arguments));
    ("max_coupling", default (PInt 100) (Dict.get "max_coupling" arguments));
    ("min_revs", default (PInt 5) (Dict.get "min_revs" arguments));
    ("max_changeset_size", default (PInt 30) (Dict.get "max_changeset_size" arguments)) ].

(** The keyword arguments [run_authors_analysis] passes on. *)
Definition authors_kwargs (arguments : Dict.dict string param_value)
  : Dict.dict string param_value :=
  let kwargs := [ ("min_revs", default (PInt 5) (Dict.get "min_revs" arguments)) ] in
  match Dict.get "rows" arguments with
  | Some rows => Dict.set "rows" rows kwargs
  | None => kwargs
  end.

Section Wrapper.
Context (h : host).

(** The file [_load_config] opens: the one asked for, or [mcp_config.json]
    next to the package. *)
Definition config_file (config_path : option string) : string :=
  match config_path with
  | None =>
      PosixPath.join2
        (PosixPath.join2 (PosixPath.dirname (module_file h)) "..")
        "mcp_config.json"
  | Some p => p
  end.

Definition _load_config (config_path : option string) : M CodeMaatConfig :=
  let config_path := config_file config_path in
  try_except
    (let* text := read_text h config_path in
     match json_loads h text with
     | None => raise JSONDecodeError
     | Some config_data =>
         let code_maat_config :=
           default {| sec_jar_path := None; sec_java_executable := None;
                      sec_java_opts := None |}
                   (doc_code_maat config_data) in
         ret (new_CodeMaatConfig
                (default default_jar_path (sec_jar_path code_maat_config))
                (Some (default "java" (sec_java_executable code_maat_config)))
                (Some (default default_java_opts (sec_java_opts code_maat_config))))
     end)
    (fun e =>
       match e with
       | FileNotFoundError _ | JSONDecodeError =>
           Some (ret (new_CodeMaatConfig default_jar_path None None))
       | _ => None
       end).

(** The directory relative engine paths are resolved against. *)
Definition base_dir : PosixPath.path :=
  PosixPath.parent (PosixPath.parent (PosixPath.of_str (module_file h))).

(** [_validate_config]; the configuration it leaves in [self.config] is
    its result. *)
Definition _validate_config (cfg : CodeMaatConfig) : M CodeMaatConfig :=
  let jar := PosixPath.of_str (jar_path cfg) in
  let jar :=
    if negb (PosixPath.is_absolute jar)
    then PosixPath.resolve (cwd h) (PosixPath.joinpath base_dir jar)
    else jar in
  let* found := path_exists (PosixPath.to_str jar) in
  if negb found
  then raise (CodeMaatError ("Code Maat JAR not found at: " +:+ PosixPath.to_str jar))
  else ret {| jar_path := PosixPath.to_str jar;
              java_executable := java_executable cfg;
              java_opts := java_opts cfg |}.

(** [CodeMaatWrapper(config_path)] *)
Definition __init__ (config_path : option string) : M CodeMaatWrapper :=
  let* cfg := _load_config config_path in
  let* cfg := _validate_config cfg in
  ret {| config := cfg |}.

Definition validate_inputs (log_file vcs analysis : string) : M bool :=
  let* found := path_exists log_file in
  if negb found
  then raise (CodeMaatError ("Log file not found: " +:+ log_file))
  else if negb (bool_decide (vcs ∈ SUPPORTED_VCS))
  then raise (CodeMaatError
                ("Unsupported VCS: " +:+ vcs +:+ ". Supported: " +:+
                 join ", " (set_order h (elements SUPPORTED_VCS))))
  else if negb (bool_decide (analysis ∈ SUPPORTED_ANALYSES))
  then raise (CodeMaatError
                ("Unsupported analysis: " +:+ analysis +:+ ". Supported: " +:+
                 join ", " (set_order h (elements SUPPORTED_ANALYSES))))
  else ret true.

(** The argument vector [run_analysis] builds before it runs the engine. *)
Definition analysis_cmd (self : CodeMaatWrapper) (log_file vcs analysis : string)
           (kwargs : Dict.dict string param_value) : list string :=
  let cmd :=
    [java_executable (config self)] ++ java_opts (config self) ++
    ["-jar"; jar_path (config self); "-l"; log_file; "-c"; vcs; "-a"; analysis] in
  _add_optional_params cmd kwargs.

Definition run_analysis (self : CodeMaatWrapper) (log_file vcs analysis : string)
           (kwargs : Dict.dict string param_value)
  : M (list (Dict.dict (option string) pyvalue)) :=
  let* _ := validate_inputs log_file vcs analysis in
  let cmd := analysis_cmd self log_file vcs analysis kwargs in
  try_except
    (let* result := subprocess_run h cmd None (Some 300%N) in
     lift (_parse_csv_output (stdout result)))
    (fun e =>
       match e with
       | CalledProcessError _ _ _ err =>
           Some (raise (CodeMaatError ("Code Maat execution failed: " +:+ err)))
       | TimeoutExpired _ _ =>
           Some (raise (CodeMaatError "Code Maat execution timed out"))
       | _ => None
       end).

Definition generate_git_log (repo_path output_file format_type : string)
           (after_date : option string) (exclude_paths : option (list string))
  : M string :=
  let* found := path_exists repo_path in
  if negb found
  then raise (CodeMaatError ("Repository path not found: " +:+ repo_path))
  else
    let cmd := git_log_cmd format_type after_date exclude_paths in
    try_except
      (let* result := subprocess_run h cmd (Some repo_path) None in
       let* _ := write_text h output_file (stdout result) in
       ret output_file)
      (fun e =>
         match e with
         | CalledProcessError _ _ _ err =>
             Some (raise (CodeMaatError ("Git log generation failed: " +:+ err)))
         | _ => None
         end).

End Wrapper.

(** ** What the claims speak of, in the words of the specification *)

(** The tokens one keyword argument adds to the argument vector. *)
Definition item_tokens (item : string * param_value) : list string :=
  match Dict.get (fst item) param_mapping with
  | Some flag => if is_None (snd item) then [] else [flag; py_str (snd item)]
  | None => []
  end.

(** The value-carrying flags of a parameter mapping, in insertion order. *)
Definition valued_flags (kwargs : Dict.dict string param_value) : list string :=
  flat_map item_tokens kwargs.

(** The bare flag, present when [verbose_results] is truthy. *)
Definition verbose_flag (kwargs : Dict.dict string param_value) : list string :=
  if truthy (default PNone (Dict.get "verbose_results" kwargs))
  then ["--verbose-results"] else [].

(** The optional flags as they would stand were every parameter, the boolean
    one included, emitted at its place in the insertion order. *)
Definition insertion_order_flags (kwargs : Dict.dict string param_value)
  : list string :=
  flat_map (fun item =>
              if (fst item =? "verbose_results")%string
              then (if truthy (snd item) then ["--verbose-results"] else [])
              else item_tokens item) kwargs.

(** [cmd] holds [flag] immediately followed by [value]. *)
Definition has_pair (flag value : string) (cmd : list string) : Prop :=
  exists before after, cmd = before ++ [flag; value] ++ after.

(** The fixed head of every analysis command. *)
Definition cmd_head (cfg : CodeMaatConfig) (log_file vcs analysis : string)
  : list string :=
  [java_executable cfg] ++ java_opts cfg ++
  ["-jar"; jar_path cfg; "-l"; log_file; "-c"; vcs; "-a"; analysis].

(** Text that is empty or made of white space only. *)
Fixpoint all_space (s : string) : bool :=
  match s with
  | "" => true
  | String c r => is_space c && all_space r
  end.

(** The three messages [validate_inputs] raises start with these words. *)
Definition is_validation_message (msg : string) : bool :=
  startswith msg "Log file not found: "
  || startswith msg "Unsupported VCS: "
  || startswith msg "Unsupported analysis: ".

(** The text of the [AttributeError] a list of surplus fields meets. *)
Definition strip_message : string := "'list' object has no attribute 'strip'".

(** A key and value [DictReader] makes from a field or from [restval]. *)
Definition plain_item (item : option string * Csv.row_value) : Prop :=
  fst item <> None /\ (forall l, snd item <> Csv.RList l).

(** The value the ordered fallback gives to the text of one field. *)
Definition field_value (value : string) : pyvalue :=
  if is_empty (strip value) then PyNone
  else match py_int value with
       | Some n => PyInt n
       | None =>
           match py_float value with
           | Some f => PyFloat f
           | None => PyStr (strip value)
           end
       end.

(** The rows [DictReader] does not skip. *)
Definition not_blank (row : list string) : bool := negb (Csv.is_blank row).

(** The path [_validate_config] looks for the engine at. *)
Definition resolved_jar (h : host) (cfg : CodeMaatConfig) : PosixPath.path :=
  let jar := PosixPath.of_str (jar_path cfg) in
  if negb (PosixPath.is_absolute jar)
  then PosixPath.resolve (cwd h) (PosixPath.joinpath (base_dir h) jar)
  else jar.

Fixpoint no_slash (s : string) : bool :=
  match s with
  | "" => true
  | String c r => negb (PosixPath.is_slash c) && no_slash r
  end.

(** A path component: not empty, not a dot, without a slash. *)
Definition component (s : string) : bool :=
  PosixPath.is_component s && no_slash s.

(** Paths as [pathlib] builds them. *)
Definition sound (p : PosixPath.path) : Prop :=
  (PosixPath.root p = "" \/ PosixPath.root p = "/" \/ PosixPath.root p = "//")
  /\ Forall (fun x => component x = true) (PosixPath.parts p).

(** Sound absolute paths. *)
Definition rooted (p : PosixPath.path) : Prop :=
  (PosixPath.root p = "/" \/ PosixPath.root p = "//")
  /\ Forall (fun x => component x = true) (PosixPath.parts p).

(** Text in which no character satisfies [sp]. *)
Fixpoint none_of (sp : ascii -> bool) (s : string) : bool :=
  match s with
  | "" => true
  | String c r => negb (sp c) && none_of sp r
  end.

(** A machine to run the model on. *)
Module Sample.

Definition nl : string := String "010" "".

Definition summary_output : string :=
  "statistic,value" +:+ nl +:+ "number-of-commits,919" +:+ nl +:+
  "number-of-entities,730" +:+ nl.

(** The engine prints a summary; every other program fails with a
    complaint on standard error. *)
Definition sample_process (args : list string) (cwd : option string)
  : proc_behaviour :=
  match args with
  | "java" :: _ => Exits 2 0 summary_output ""
  | "git" :: _ => Exits 1 0 ("--a1b2c3--2024-01-01--dev" +:+ nl) ""
  | _ => Exits 1 1 "" "no such engine"
  end.

Definition sample_host : host :=
  {| module_file := "/srv/mcp-server/src/code_maat_wrapper.py";
     cwd := "/srv";
     json_loads := fun _ => None;
     process := sample_process;
     denied := fun _ => false;
     set_order := fun l => l |}.

(** The same machine with an engine that fails, and with one that takes
    longer than five minutes. *)
Definition failing_host : host :=
  {| module_file := module_file sample_host; cwd := cwd sample_host;
     json_loads := json_loads sample_host;
     process := fun _ _ => Exits 1 1 "" "Invalid argument";
     denied := denied sample_host; set_order := set_order sample_host |}.

Definition slow_host : host :=
  {| module_file := module_file sample_host; cwd := cwd sample_host;
     json_loads := json_loads sample_host;
     process := fun _ _ => Exits 301 0 summary_output "";
     denied := denied sample_host; set_order := set_order sample_host |}.

(** The same machine with a client that never exits. *)
Definition hanging_host : host :=
  {| module_file := module_file sample_host; cwd := cwd sample_host;
     json_loads := json_loads sample_host;
     process := fun _ _ => Never_exits;
     denied := denied sample_host; set_order := set_order sample_host |}.

Definition sample_world : world :=
  {| fs := {[ "/srv/target/code-maat-1.0.5-SNAPSHOT-standalone.jar" := File "";
              "/srv/repo" := Dir;
              "/srv/history.log" := File "" ]};
     invocations := [] |}.

Definition sample_config : CodeMaatConfig :=
  {| jar_path := "/srv/target/code-maat-1.0.5-SNAPSHOT-standalone.jar";
     java_executable := "java";
     java_opts := default_java_opts |}.

Definition sample_wrapper : CodeMaatWrapper := {| config := sample_config |}.

End Sample.

(** * Properties *)

(** ** Validation comes first *)

Lemma path_exists_run (p : string) (w : world) :
  path_exists p w = (Returned (bool_decide (is_Some (fs w !! p))), w).
Proof. reflexivity. Qed.

Lemma validate_inputs_ok (h : host) (log_file vcs analysis : string) (w : world) :
  is_Some (fs w !! log_file) -> vcs ∈ SUPPORTED_VCS -> analysis ∈ SUPPORTED_ANALYSES ->
  validate_inputs h log_file vcs analysis w = (Returned true, w).
Proof.
  intros Hlog Hvcs Han. unfold validate_inputs, bind. rewrite path_exists_run.
  rewrite (bool_decide_eq_true_2 _ Hlog). cbn [negb].
  rewrite (bool_decide_eq_true_2 _ Hvcs). cbn [negb].
  rewrite (bool_decide_eq_true_2 _ Han). reflexivity.
Qed.

Lemma validate_inputs_rejects (h : host) (log_file vcs analysis : string) (w : world) :
  fs w !! log_file = None \/ vcs ∉ SUPPORTED_VCS \/ analysis ∉ SUPPORTED_ANALYSES ->
  exists msg,
    validate_inputs h log_file vcs analysis w = (Raised (CodeMaatError msg), w)
    /\ is_validation_message msg = true.
Proof.
  intros Hbad. unfold validate_inputs, bind. rewrite path_exists_run.
  destruct (bool_decide (is_Some (fs w !! log_file))) eqn:Hlog; cbn [negb].
  - destruct (bool_decide (vcs ∈ SUPPORTED_VCS)) eqn:Hvcs; cbn [negb].
    + destruct (bool_decide (analysis ∈ SUPPORTED_ANALYSES)) eqn:Han; cbn [negb].
      * exfalso. apply bool_decide_eq_true_1 in Hlog, Hvcs, Han.
        destruct Hbad as [Hnone | [Hv | Ha]]; [| tauto | tauto].
        rewrite Hnone in Hlog. destruct Hlog as [x Hx]. discriminate.
      * eexists; split; [reflexivity |]. reflexivity.
    + eexists; split; [reflexivity |]. reflexivity.
  - eexists; split; [reflexivity |]. reflexivity.
Qed.

(** C1: a request whose log file is missing, or whose VCS kind or analysis
    kind lies outside the supported sets, makes [run_analysis] raise
    [CodeMaatError] with one of the validation messages; the world comes back
    as it was, so [subprocess.run] has not been called. *)
Theorem run_analysis_rejects_before_spawning
        (h : host) (self : CodeMaatWrapper) (log_file vcs analysis : string)
        (kwargs : Dict.dict string param_value) (w : world) :
  fs w !! log_file = None \/ vcs ∉ SUPPORTED_VCS \/ analysis ∉ SUPPORTED_ANALYSES ->
  exists msg,
    run_analysis h self log_file vcs analysis kwargs w
      = (Raised (CodeMaatError msg), w)
    /\ is_validation_message msg = true
    /\ invocations (snd (run_analysis h self log_file vcs analysis kwargs w))
       = invocations w.
Proof.
  intros Hbad.
  destruct (validate_inputs_rejects h log_file vcs analysis w Hbad) as (msg & Hrun & Hmsg).
  exists msg. unfold run_analysis, bind. rewrite Hrun. simpl. auto.
Qed.

Lemma run_analysis_rejects_before_spawning_witness :
  exists msg,
    run_analysis Sample.sample_host Sample.sample_wrapper
                 "/srv/history.log" "cvs" "summary" [("rows", PInt 5)] Sample.sample_world
      = (Raised (CodeMaatError msg), Sample.sample_world)
    /\ is_validation_message msg = true
    /\ invocations (snd (run_analysis Sample.sample_host Sample.sample_wrapper
                 "/srv/history.log" "cvs" "summary" [("rows", PInt 5)] Sample.sample_world))
       = invocations Sample.sample_world.
Proof.
  apply (run_analysis_rejects_before_spawning Sample.sample_host Sample.sample_wrapper
           "/srv/history.log" "cvs" "summary" [("rows", PInt 5)] Sample.sample_world).
  right; left. apply (bool_decide_eq_false_1 _). vm_compute. reflexivity.
Defined.

(** ** The command builder *)

Lemma add_param_tokens (cmd : list string) (item : string * param_value) :
  add_param cmd item = cmd ++ item_tokens item.
Proof.
  destruct item as [param value]. unfold add_param, item_tokens. cbn [fst snd].
  destruct (Dict.get param param_mapping); [| symmetry; apply app_nil_r].
  destruct (is_None value); [symmetry; apply app_nil_r | reflexivity].
Qed.

Lemma fold_add_param (kwargs : Dict.dict string param_value) (cmd : list string) :
  fold_left add_param kwargs cmd = cmd ++ valued_flags kwargs.
Proof.
  revert cmd. induction kwargs as [| item rest IH]; intros cmd; simpl.
  - by rewrite app_nil_r.
  - rewrite IH, add_param_tokens, <- app_assoc. reflexivity.
Qed.

Lemma add_optional_params_eq (cmd : list string)
      (kwargs : Dict.dict string param_value) :
  _add_optional_params cmd kwargs = cmd ++ valued_flags kwargs ++ verbose_flag kwargs.
Proof.
  unfold _add_optional_params, verbose_flag. rewrite fold_add_param.
  destruct (truthy _); [by rewrite app_assoc | by rewrite app_nil_r].
Qed.

Lemma valued_flags_app (k1 k2 : Dict.dict string param_value) :
  valued_flags (k1 ++ k2) = valued_flags k1 ++ valued_flags k2.
Proof. unfold valued_flags. apply flat_map_app. Qed.

Lemma valued_flags_cons (item : string * param_value)
      (rest : Dict.dict string param_value) :
  valued_flags (item :: rest) = item_tokens item ++ valued_flags rest.
Proof. reflexivity. Qed.

Lemma get_skip {V : Type} (k param : string) (v : V) (before after : Dict.dict string V) :
  param <> k ->
  Dict.get k (before ++ (param, v) :: after) = Dict.get k (before ++ after).
Proof.
  intros Hne. induction before as [| [k' v'] rest IH]; simpl.
  - destruct (decide (k = param)); [congruence | reflexivity].
  - destruct (decide (k = k')); [reflexivity | exact IH].
Qed.

Lemma silent_item_removed (cmd : list string) (param : string) (value : param_value)
      (before after : Dict.dict string param_value) :
  item_tokens (param, value) = [] -> param <> "verbose_results" ->
  _add_optional_params cmd (before ++ (param, value) :: after)
  = _add_optional_params cmd (before ++ after).
Proof.
  intros Hsilent Hne. rewrite !add_optional_params_eq. unfold verbose_flag.
  rewrite (get_skip _ _ _ _ _ Hne), !valued_flags_app, valued_flags_cons, Hsilent.
  reflexivity.
Qed.

Lemma recognized_not_verbose (param flag : string) :
  Dict.get param param_mapping = Some flag -> param <> "verbose_results".
Proof. intros Hget ->. vm_compute in Hget. discriminate. Qed.

Lemma valued_flags_pair (kwargs : Dict.dict string param_value)
      (param flag : string) (value : param_value) :
  (param, value) ∈ kwargs -> Dict.get param param_mapping = Some flag ->
  value <> PNone ->
  exists before after,
    valued_flags kwargs = before ++ [flag; py_str value] ++ after.
Proof.
  intros Hin Hflag Hval. apply list_elem_of_split in Hin as (k1 & k2 & ->).
  exists (valued_flags k1), (valued_flags k2).
  rewrite valued_flags_app, valued_flags_cons. f_equal. f_equal.
  unfold item_tokens. cbn [fst snd]. rewrite Hflag.
  destruct value; simpl; congruence.
Qed.

(** C3, counterexample: [rows] is a recognized name, yet passed as [None]
    it puts neither [-r] nor a value into the argument vector. *)
Lemma none_valued_param_contributes_nothing :
  Dict.get "rows" param_mapping = Some "-r"
  /\ ~ has_pair "-r" (py_str PNone)
       (analysis_cmd Sample.sample_wrapper "/srv/history.log" "git" "summary"
                     [("rows", PNone)])
  /\ "-r" ∉ analysis_cmd Sample.sample_wrapper "/srv/history.log" "git" "summary"
                         [("rows", PNone)].
Proof.
  assert (Hnot : "-r" ∉ analysis_cmd Sample.sample_wrapper "/srv/history.log"
                          "git" "summary" [("rows", PNone)]).
  { apply (bool_decide_eq_false_1 _). vm_compute. reflexivity. }
  split; [reflexivity | split; [| exact Hnot]].
  intros (before & after & Heq). apply Hnot. rewrite Heq.
  apply elem_of_app. right. apply elem_of_app. left. apply list_elem_of_here.
Qed.

(** C3, amended: the argument vector begins with the fixed head; every
    recognized parameter whose value is not [None] contributes its flag
    immediately followed by [str(value)]; a name that is neither in the table
    nor [verbose_results] contributes nothing; and [--verbose-results] is the
    last token when [verbose_results] is truthy, and is not appended when it
    is not. *)
Theorem analysis_cmd_contract
        (self : CodeMaatWrapper) (log_file vcs analysis : string)
        (kwargs : Dict.dict string param_value) :
  let cmd := analysis_cmd self log_file vcs analysis kwargs in
  (exists rest, cmd = cmd_head (config self) log_file vcs analysis ++ rest)
  /\ (forall param value flag,
        (param, value) ∈ kwargs -> Dict.get param param_mapping = Some flag ->
        value <> PNone -> has_pair flag (py_str value) cmd)
  /\ (forall before after param value,
        kwargs = before ++ (param, value) :: after ->
        Dict.get param param_mapping = None -> param <> "verbose_results" ->
        cmd = analysis_cmd self log_file vcs analysis (before ++ after))
  /\ (truthy (default PNone (Dict.get "verbose_results" kwargs)) = true ->
        cmd = cmd_head (config self) log_file vcs analysis
              ++ valued_flags kwargs ++ ["--verbose-results"])
  /\ (truthy (default PNone (Dict.get "verbose_results" kwargs)) = false ->
        cmd = cmd_head (config self) log_file vcs analysis ++ valued_flags kwargs).
Proof.
  cbv zeta. unfold analysis_cmd. fold (cmd_head (config self) log_file vcs analysis).
  repeat split.
  - rewrite add_optional_params_eq. eauto.
  - intros param value flag Hin Hflag Hval.
    destruct (valued_flags_pair kwargs param flag value Hin Hflag Hval)
      as (before & after & Heq).
    exists (cmd_head (config self) log_file vcs analysis ++ before),
           (after ++ verbose_flag kwargs).
    rewrite add_optional_params_eq, Heq. rewrite <- !app_assoc. reflexivity.
  - intros before after param value -> Hnone Hne.
    apply silent_item_removed; [| exact Hne].
    unfold item_tokens. cbn [fst snd]. by rewrite Hnone.
  - intros Htrue. rewrite add_optional_params_eq. unfold verbose_flag.
    by rewrite Htrue.
  - intros Hfalse. rewrite add_optional_params_eq. unfold verbose_flag.
    rewrite Hfalse. by rewrite app_nil_r.
Qed.

Lemma analysis_cmd_contract_witness :
  has_pair "-i" "50"
    (analysis_cmd Sample.sample_wrapper "/srv/history.log" "git" "coupling"
                  [("min_coupling", PInt 50); ("verbose_results", PBool true)])
  /\ analysis_cmd Sample.sample_wrapper "/srv/history.log" "git" "coupling"
                  [("min_coupling", PInt 50); ("verbose_results", PBool true)]
     = cmd_head Sample.sample_config "/srv/history.log" "git" "coupling"
       ++ ["-i"; "50"] ++ ["--verbose-results"].
Proof.
  pose proof (analysis_cmd_contract Sample.sample_wrapper "/srv/history.log" "git"
                "coupling" [("min_coupling", PInt 50); ("verbose_results", PBool true)])
    as (_ & Hpair & _ & Hverbose & _).
  split.
  - apply (Hpair "min_coupling" (PInt 50) "-i").
    + apply list_elem_of_here.
    + reflexivity.
    + discriminate.
  - apply Hverbose. reflexivity.
Defined.

(** C5, counterexample: with [verbose_results] inserted before [rows], the
    bare flag still comes out after [-r 5], not at its insertion position. *)
Lemma verbose_flag_out_of_insertion_order :
  _add_optional_params [] [("verbose_results", PBool true); ("rows", PInt 5)]
  = ["-r"; "5"; "--verbose-results"]
  /\ insertion_order_flags [("verbose_results", PBool true); ("rows", PInt 5)]
     = ["--verbose-results"; "-r"; "5"]
  /\ _add_optional_params [] [("verbose_results", PBool true); ("rows", PInt 5)]
     <> [] ++ insertion_order_flags [("verbose_results", PBool true); ("rows", PInt 5)].
Proof. split; [reflexivity | split; [reflexivity | discriminate]]. Qed.

(** C5, amended: the value-carrying flags appear in the insertion order of
    the parameter mapping, and [--verbose-results], when emitted, comes after
    all of them whatever the position of [verbose_results] in the mapping;
    a mapping without that key is rendered in insertion order throughout. *)
Theorem optional_flags_order
        (cmd : list string) (kwargs : Dict.dict string param_value) :
  _add_optional_params cmd kwargs
  = cmd ++ flat_map item_tokens kwargs ++ verbose_flag kwargs
  /\ (forall k1 item1 k2 item2 k3,
        kwargs = k1 ++ item1 :: k2 ++ item2 :: k3 ->
        _add_optional_params cmd kwargs
        = cmd ++ valued_flags k1 ++ item_tokens item1 ++ valued_flags k2
              ++ item_tokens item2 ++ valued_flags k3 ++ verbose_flag kwargs)
  /\ (Forall (fun item => fst item <> "verbose_results") kwargs ->
        _add_optional_params cmd kwargs = cmd ++ insertion_order_flags kwargs).
Proof.
  split; [apply add_optional_params_eq | split].
  - intros k1 item1 k2 item2 k3 ->. rewrite add_optional_params_eq.
    rewrite valued_flags_app, valued_flags_cons, valued_flags_app, valued_flags_cons.
    rewrite <- !app_assoc. reflexivity.
  - intros Hno. rewrite add_optional_params_eq.
    assert (Hget : Dict.get "verbose_results" kwargs = None).
    { induction Hno as [| [k v] rest Hk _ IH]; [reflexivity |]. simpl in *.
      destruct (decide ("verbose_results" = k)); [congruence | exact IH]. }
    unfold verbose_flag. rewrite Hget. simpl. rewrite app_nil_r. f_equal.
    clear Hget. unfold valued_flags, insertion_order_flags.
    induction Hno as [| item rest Hk _ IH]; [reflexivity |]. simpl.
    rewrite IH. apply String.eqb_neq in Hk. rewrite Hk. reflexivity.
Qed.

Lemma optional_flags_order_witness :
  _add_optional_params ["java"] [("min_revs", PInt 5); ("rows", PInt 10)]
  = ["java"] ++ insertion_order_flags [("min_revs", PInt 5); ("rows", PInt 10)].
Proof.
  apply (optional_flags_order ["java"] [("min_revs", PInt 5); ("rows", PInt 10)]).
  repeat constructor; discriminate.
Defined.

(** C10: a recognized parameter passed as [None] adds no token, just as an
    unrecognized name adds none, and the argument vector is the one built
    without it. *)
Theorem none_valued_param_omitted
        (cmd : list string) (before after : Dict.dict string param_value)
        (param flag : string) :
  Dict.get param param_mapping = Some flag ->
  item_tokens (param, PNone) = []
  /\ (forall other value,
        Dict.get other param_mapping = None -> item_tokens (other, value) = [])
  /\ _add_optional_params cmd (before ++ (param, PNone) :: after)
     = _add_optional_params cmd (before ++ after).
Proof.
  intros Hflag.
  assert (Hsilent : item_tokens (param, PNone) = []).
  { unfold item_tokens. cbn [fst snd]. by rewrite Hflag. }
  split; [exact Hsilent | split].
  - intros other value Hnone. unfold item_tokens. cbn [fst snd]. by rewrite Hnone.
  - apply silent_item_removed; [exact Hsilent |].
    exact (recognized_not_verbose param flag Hflag).
Qed.

Lemma none_valued_param_omitted_witness :
  item_tokens ("min_revs", PNone) = []
  /\ (forall other value,
        Dict.get other param_mapping = None -> item_tokens (other, value) = [])
  /\ _add_optional_params ["java"] ([("rows", PInt 3)] ++ ("min_revs", PNone) :: [])
     = _add_optional_params ["java"] ([("rows", PInt 3)] ++ []).
Proof.
  apply (none_valued_param_omitted ["java"] [("rows", PInt 3)] [] "min_revs" "-n").
  reflexivity.
Defined.

(** ** Running the engine *)

Lemma run_analysis_validated (h : host) (self : CodeMaatWrapper)
      (log_file vcs analysis : string) (kwargs : Dict.dict string param_value)
      (w : world) :
  is_Some (fs w !! log_file) -> vcs ∈ SUPPORTED_VCS -> analysis ∈ SUPPORTED_ANALYSES ->
  run_analysis h self log_file vcs analysis kwargs w
  = try_except
      (let* result := subprocess_run h (analysis_cmd self log_file vcs analysis kwargs)
                                     None (Some 300%N) in
       lift (_parse_csv_output (stdout result)))
      (fun e =>
         match e with
         | CalledProcessError _ _ _ err =>
             Some (raise (CodeMaatError ("Code Maat execution failed: " +:+ err)))
         | TimeoutExpired _ _ =>
             Some (raise (CodeMaatError "Code Maat execution timed out"))
         | _ => None
         end) w.
Proof.
  intros Hlog Hvcs Han. unfold run_analysis. unfold bind at 1.
  rewrite (validate_inputs_ok h log_file vcs analysis w Hlog Hvcs Han). reflexivity.
Qed.

(** C4: once the request is valid, an engine that exits with a non-zero
    status within the 300 seconds makes [run_analysis] raise [CodeMaatError]
    with the captured standard error text at the end of its message, and an
    engine that has not finished after 300 seconds, or never finishes, makes
    it raise the time-out [CodeMaatError]. *)
Theorem run_analysis_process_failures
        (h : host) (self : CodeMaatWrapper) (log_file vcs analysis : string)
        (kwargs : Dict.dict string param_value) (w : world) :
  is_Some (fs w !! log_file) -> vcs ∈ SUPPORTED_VCS -> analysis ∈ SUPPORTED_ANALYSES ->
  let cmd := analysis_cmd self log_file vcs analysis kwargs in
  let run := run_analysis h self log_file vcs analysis kwargs w in
  (forall t rc out err,
      process h cmd None = Exits t rc out err -> (t <= 300)%N -> rc <> 0 ->
      fst run = Raised (CodeMaatError ("Code Maat execution failed: " +:+ err)))
  /\ (forall t rc out err,
        process h cmd None = Exits t rc out err -> (300 < t)%N ->
        fst run = Raised (CodeMaatError "Code Maat execution timed out"))
  /\ (process h cmd None = Never_exits ->
        fst run = Raised (CodeMaatError "Code Maat execution timed out")).
Proof.
  intros Hlog Hvcs Han cmd run. subst run.
  rewrite (run_analysis_validated h self log_file vcs analysis kwargs w Hlog Hvcs Han).
  fold cmd. unfold try_except, bind, subprocess_run. repeat split.
  - intros t rc out err Hproc Ht Hrc. rewrite Hproc.
    destruct (N.ltb_spec 300 t) as [Hlt | _]; [lia |].
    destruct (Z.eqb_spec rc 0) as [Heq | _]; [contradiction |]. reflexivity.
  - intros t rc out err Hproc Ht. rewrite Hproc.
    destruct (N.ltb_spec 300 t) as [_ | Hle]; [reflexivity | lia].
  - intros Hproc. rewrite Hproc. reflexivity.
Qed.

Lemma run_analysis_process_failures_witness :
  fst (run_analysis Sample.failing_host Sample.sample_wrapper "/srv/history.log"
                    "git2" "coupling" [("min_coupling", PInt 50)] Sample.sample_world)
  = Raised (CodeMaatError "Code Maat execution failed: Invalid argument")
  /\ fst (run_analysis Sample.slow_host Sample.sample_wrapper "/srv/history.log"
                       "git2" "coupling" [("min_coupling", PInt 50)] Sample.sample_world)
     = Raised (CodeMaatError "Code Maat execution timed out").
Proof.
  assert (Hlog : is_Some (fs Sample.sample_world !! "/srv/history.log")).
  { vm_compute. eexists. reflexivity. }
  assert (Hvcs : "git2" ∈ SUPPORTED_VCS).
  { apply (bool_decide_eq_true_1 _). vm_compute. reflexivity. }
  assert (Han : "coupling" ∈ SUPPORTED_ANALYSES).
  { apply (bool_decide_eq_true_1 _). vm_compute. reflexivity. }
  split.
  - refine (proj1 (run_analysis_process_failures Sample.failing_host
              Sample.sample_wrapper "/srv/history.log" "git2" "coupling"
              [("min_coupling", PInt 50)] Sample.sample_world Hlog Hvcs Han)
              1%N 1 "" "Invalid argument" _ _ _).
    + reflexivity.
    + lia.
    + lia.
  - refine (proj1 (proj2 (run_analysis_process_failures Sample.slow_host
              Sample.sample_wrapper "/srv/history.log" "git2" "coupling"
              [("min_coupling", PInt 50)] Sample.sample_world Hlog Hvcs Han))
              301%N 0 Sample.summary_output "" _ _).
    + reflexivity.
    + lia.
Defined.

(** ** Reading the engine's output *)

Lemma lstrip_all_space (s : string) :
  all_space s = true -> lstrip_by is_space s = "".
Proof.
  induction s as [| c r IH]; simpl; [reflexivity |].
  intros Hall. apply andb_true_iff in Hall as [Hc Hr]. rewrite Hc. auto.
Qed.

Lemma strip_all_space (s : string) : all_space s = true -> strip s = "".
Proof.
  intros Hall. unfold strip, strip_by. by rewrite (lstrip_all_space s Hall).
Qed.

(** C6: on text that is empty or made of white space only the parser
    returns the empty list of records; it does not raise. *)
Theorem parse_blank_output (csv_output : string) :
  all_space csv_output = true -> _parse_csv_output csv_output = Ok [].
Proof.
  intros Hall. unfold _parse_csv_output.
  by rewrite (strip_all_space csv_output Hall).
Qed.

Lemma parse_blank_output_witness :
  _parse_csv_output (" " +:+ Sample.nl +:+ String "009" "" +:+ Sample.nl) = Ok [].
Proof.
  apply (parse_blank_output (" " +:+ Sample.nl +:+ String "009" "" +:+ Sample.nl)).
  reflexivity.
Defined.

(** ** Generating the history log *)

Lemma generate_git_log_missing (h : host)
      (repo_path output_file format_type : string)
      (after_date : option string) (exclude_paths : option (list string))
      (w : world) :
  fs w !! repo_path = None ->
  generate_git_log h repo_path output_file format_type after_date exclude_paths w
  = (Raised (CodeMaatError ("Repository path not found: " +:+ repo_path)), w).
Proof.
  intros Hnone. unfold generate_git_log, bind. rewrite path_exists_run, Hnone.
  rewrite bool_decide_eq_false_2; [reflexivity | by intros [x Hx]].
Qed.

Lemma generate_git_log_found (h : host)
      (repo_path output_file format_type : string)
      (after_date : option string) (exclude_paths : option (list string))
      (w : world) :
  is_Some (fs w !! repo_path) ->
  generate_git_log h repo_path output_file format_type after_date exclude_paths w
  = try_except
      (let* result := subprocess_run h (git_log_cmd format_type after_date exclude_paths)
                                     (Some repo_path) None in
       let* _ := write_text h output_file (stdout result) in
       ret output_file)
      (fun e =>
         match e with
         | CalledProcessError _ _ _ err =>
             Some (raise (CodeMaatError ("Git log generation failed: " +:+ err)))
         | _ => None
         end) w.
Proof.
  intros Hsome. unfold generate_git_log. unfold bind at 1.
  rewrite path_exists_run, (bool_decide_eq_true_2 _ Hsome). reflexivity.
Qed.

(** C7: when the repository path does not exist [generate_git_log] raises
    [CodeMaatError] and calls no process; when it exists the client is run
    once, in the repository as working directory and without time limit; if
    the client exits with status zero and the output file can be opened for
    writing, the captured standard output becomes the content of the output
    file and the output path is returned; if the client exits with another
    status, [CodeMaatError] carrying its standard error is raised. *)
Theorem generate_git_log_contract
        (h : host) (repo_path output_file format_type : string)
        (after_date : option string) (exclude_paths : option (list string))
        (w : world) :
  let cmd := git_log_cmd format_type after_date exclude_paths in
  let run := generate_git_log h repo_path output_file format_type after_date
                              exclude_paths w in
  (fs w !! repo_path = None ->
     run = (Raised (CodeMaatError ("Repository path not found: " +:+ repo_path)), w))
  /\ (is_Some (fs w !! repo_path) ->
        invocations (snd run)
        = invocations w ++
          [{| inv_args := cmd; inv_cwd := Some repo_path; inv_timeout := None |}]
        /\ (forall t text err,
              process h cmd (Some repo_path) = Exits t 0 text err ->
              fs w !! output_file <> Some Dir -> denied h output_file = false ->
              fst run = Returned output_file
              /\ fs (snd run) = <[output_file := File text]> (fs w))
        /\ (forall t rc text err,
              process h cmd (Some repo_path) = Exits t rc text err -> rc <> 0 ->
              fst run = Raised (CodeMaatError ("Git log generation failed: " +:+ err))
              /\ fs (snd run) = fs w)).
Proof.
  intros cmd run. subst run. split.
  - apply generate_git_log_missing.
  - intros Hsome.
    rewrite (generate_git_log_found h repo_path output_file format_type
               after_date exclude_paths w Hsome).
    fold cmd. unfold try_except, bind, subprocess_run, write_text, ret, raise.
    split; [| split].
    + destruct (process h cmd (Some repo_path)) as [t rc text err | | e].
      * destruct (rc =? 0)%Z; cbn [stdout fs]; [| reflexivity].
        destruct (fs w !! output_file) as [[text' |] |];
          try destruct (denied h output_file); reflexivity.
      * reflexivity.
      * destruct e; reflexivity.
    + intros t text err Hproc Hdir Hdenied. rewrite Hproc. cbn [Z.eqb stdout fs].
      destruct (fs w !! output_file) as [[text' |] |]; [| congruence |];
        rewrite Hdenied; split; reflexivity.
    + intros t rc text err Hproc Hrc. rewrite Hproc.
      destruct (Z.eqb_spec rc 0) as [Heq | _]; [contradiction |].
      split; reflexivity.
Qed.

Lemma generate_git_log_contract_witness :
  fst (generate_git_log Sample.sample_host "/srv/repo" "/srv/out.log" "git2"
                        None None Sample.sample_world)
  = Returned "/srv/out.log"
  /\ fs (snd (generate_git_log Sample.sample_host "/srv/repo" "/srv/out.log" "git2"
                               None None Sample.sample_world))
     = <["/srv/out.log" := File ("--a1b2c3--2024-01-01--dev" +:+ Sample.nl)]>
         (fs Sample.sample_world).
Proof.
  assert (Hrepo : is_Some (fs Sample.sample_world !! "/srv/repo")).
  { vm_compute. eexists. reflexivity. }
  refine (proj1 (proj2 (proj2 (generate_git_log_contract Sample.sample_host
            "/srv/repo" "/srv/out.log" "git2" None None Sample.sample_world) Hrepo))
            1%N ("--a1b2c3--2024-01-01--dev" +:+ Sample.nl) "" _ _ _).
  - reflexivity.
  - vm_compute. discriminate.
  - reflexivity.
Defined.

(** ** Dictionaries *)

Section DictFacts.
Context {K V : Type} `{EqDecision K}.
Implicit Types (d : Dict.dict K V) (k : K) (v : V).

Lemma get_set_eq d k v : Dict.get k (Dict.set k v d) = Some v.
Proof.
  induction d as [| [k' v'] r IH]; simpl.
  - by rewrite decide_True.
  - destruct (decide (k = k')) as [-> | Hne]; simpl.
    + by rewrite decide_True.
    + rewrite decide_False; [exact IH | exact Hne].
Qed.

Lemma get_set_ne d k k' v : k <> k' -> Dict.get k' (Dict.set k v d) = Dict.get k' d.
Proof.
  intros Hne. induction d as [| [k0 v0] r IH]; simpl.
  - rewrite decide_False; [reflexivity | congruence].
  - destruct (decide (k = k0)) as [-> | Hne0]; simpl.
    + rewrite !decide_False; [reflexivity | congruence | congruence].
    + destruct (decide (k' = k0)); [reflexivity | exact IH].
Qed.

Lemma get_None_keys d k : Dict.get k d = None <-> k ∉ Dict.keys d.
Proof.
  induction d as [| [k' v'] r IH]; simpl.
  - split; [intros _; apply not_elem_of_nil | reflexivity].
  - rewrite not_elem_of_cons. destruct (decide (k = k')) as [-> | Hne].
    + split; [discriminate | intros [Hk _]; contradiction].
    + rewrite IH. tauto.
Qed.

Lemma set_fresh d k v : k ∉ Dict.keys d -> Dict.set k v d = d ++ [(k, v)].
Proof.
  induction d as [| [k' v'] r IH]; simpl; [reflexivity |].
  rewrite not_elem_of_cons. intros [Hne Hnot].
  rewrite decide_False; [| exact Hne]. by rewrite IH.
Qed.

Lemma keys_set d k v :
  Dict.keys (Dict.set k v d)
  = if bool_decide (k ∈ Dict.keys d) then Dict.keys d else Dict.keys d ++ [k].
Proof.
  induction d as [| [k' v'] r IH]; simpl; [reflexivity |].
  destruct (decide (k = k')) as [-> | Hne]; simpl.
  - rewrite bool_decide_eq_true_2; [reflexivity | apply list_elem_of_here].
  - rewrite IH. destruct (bool_decide (k ∈ Dict.keys r)) eqn:Hin.
    + apply bool_decide_eq_true_1 in Hin.
      rewrite bool_decide_eq_true_2; [reflexivity | by apply list_elem_of_further].
    + apply bool_decide_eq_false_1 in Hin.
      rewrite bool_decide_eq_false_2; [reflexivity |].
      rewrite elem_of_cons. tauto.
Qed.

Lemma NoDup_keys_set d k v : NoDup (Dict.keys d) -> NoDup (Dict.keys (Dict.set k v d)).
Proof.
  intros Hnd. rewrite keys_set. case_bool_decide as Hin; [exact Hnd |].
  apply NoDup_app. repeat split; [exact Hnd | | apply NoDup_singleton].
  intros x Hx Hx'. apply list_elem_of_singleton in Hx'. congruence.
Qed.

Lemma Forall_set (P : K * V -> Prop) d k v :
  Forall P d -> P (k, v) -> Forall P (Dict.set k v d).
Proof.
  intros Hd Hkv. induction Hd as [| [k' v'] r Hx Hr IH]; simpl.
  - by constructor.
  - destruct (decide (k = k')); constructor; assumption.
Qed.

Lemma of_pairs_invariant (P : K * V -> Prop) (pairs : list (K * V)) :
  Forall P pairs ->
  Forall P (Dict.of_pairs pairs) /\ NoDup (Dict.keys (Dict.of_pairs pairs)).
Proof.
  unfold Dict.of_pairs. intros Hall.
  assert (Hgen : forall d, Forall P d -> NoDup (Dict.keys d) ->
            Forall P (fold_left (fun d kv => Dict.set (fst kv) (snd kv) d) pairs d)
            /\ NoDup (Dict.keys
                 (fold_left (fun d kv => Dict.set (fst kv) (snd kv) d) pairs d))).
  { induction Hall as [| [k v] r Hx Hr IH]; intros d Hd Hnd; simpl; [auto |].
    apply IH; [by apply Forall_set | by apply NoDup_keys_set]. }
  apply Hgen; [constructor | apply NoDup_nil_2].
Qed.

End DictFacts.

(** ** Rows and records *)

Lemma convert_value_str (value : string) :
  _convert_value (Csv.RStr value) = Ok (field_value value).
Proof.
  unfold _convert_value, field_value. destruct value as [| c r]; [reflexivity |].
  cbn [is_empty orb]. destruct (is_empty (strip (String c r))); [reflexivity |].
  destruct (py_int (String c r)); [reflexivity |].
  destruct (py_float (String c r)); reflexivity.
Qed.

Lemma convert_value_plain (item : option string * Csv.row_value) :
  plain_item item -> exists pv, _convert_value (snd item) = Ok pv.
Proof.
  intros [_ Hlist]. destruct (snd item) as [s | | l].
  - exists (field_value s). apply convert_value_str.
  - by exists PyNone.
  - by destruct (Hlist l).
Qed.

Lemma convert_value_raises (value : Csv.row_value) (e : pyexn) :
  _convert_value value = Raise e -> e = AttributeError strip_message.
Proof.
  destruct value as [s | | [| x l]].
  - rewrite convert_value_str. discriminate.
  - discriminate.
  - discriminate.
  - intros [= <-]. reflexivity.
Qed.

Lemma convert_items_raises (items : list (option string * Csv.row_value))
      (acc : Dict.dict (option string) pyvalue) (e : pyexn) :
  convert_items items acc = Raise e -> e = AttributeError strip_message.
Proof.
  revert acc. induction items as [| [k v] r IH]; intros acc; simpl; [discriminate |].
  destruct (_convert_value v) as [pv | e'] eqn:Hv; simpl.
  - apply IH.
  - intros [= <-]. by apply (convert_value_raises v).
Qed.

Lemma convert_items_plain (items : list (option string * Csv.row_value))
      (acc : Dict.dict (option string) pyvalue) :
  Forall plain_item items -> exists rec, convert_items items acc = Ok rec.
Proof.
  intros Hall. revert acc.
  induction Hall as [| [k v] r Hx Hr IH]; intros acc; simpl; [by eexists |].
  destruct (convert_value_plain (k, v) Hx) as [pv Hpv]. simpl in Hpv.
  rewrite Hpv. simpl. apply IH.
Qed.

Lemma convert_items_surplus (items : list (option string * Csv.row_value))
      (k : option string) (x : string) (l : list string)
      (acc : Dict.dict (option string) pyvalue) :
  Forall plain_item items ->
  convert_items (items ++ [(k, Csv.RList (x :: l))]) acc
  = Raise (AttributeError strip_message).
Proof.
  intros Hall. revert acc.
  induction Hall as [| [k' v] r Hx Hr IH]; intros acc; simpl; [reflexivity |].
  destruct (convert_value_plain (k', v) Hx) as [pv Hpv]. simpl in Hpv.
  rewrite Hpv. simpl. apply IH.
Qed.

Lemma convert_items_get_other (items : list (option string * Csv.row_value))
      (acc rec : Dict.dict (option string) pyvalue) (k : option string) :
  convert_items items acc = Ok rec -> k ∉ Dict.keys items ->
  Dict.get k rec = Dict.get k acc.
Proof.
  revert acc. induction items as [| [k' v] r IH]; intros acc; simpl.
  - by intros [= <-].
  - destruct (_convert_value v) as [pv | e]; simpl; [| discriminate].
    intros Hrec Hnot. apply not_elem_of_cons in Hnot as [Hne Hnot].
    rewrite (IH _ Hrec Hnot). apply get_set_ne. congruence.
Qed.

Lemma convert_items_get (items : list (option string * Csv.row_value))
      (acc rec : Dict.dict (option string) pyvalue) (k : option string)
      (v : Csv.row_value) :
  NoDup (Dict.keys items) -> convert_items items acc = Ok rec ->
  Dict.get k items = Some v ->
  exists pv, _convert_value v = Ok pv /\ Dict.get k rec = Some pv.
Proof.
  revert acc. induction items as [| [k' v'] r IH]; intros acc Hnd; simpl;
    [discriminate |].
  apply NoDup_cons in Hnd as [Hfresh Hnd].
  destruct (_convert_value v') as [pv | e] eqn:Hv; simpl; [| discriminate].
  intros Hrec. destruct (decide (k = k')) as [-> | Hne].
  - intros [= <-]. exists pv. split; [exact Hv |].
    rewrite (convert_items_get_other r _ rec k' Hrec Hfresh). apply get_set_eq.
  - intros Hget. exact (IH _ Hnd Hrec Hget).
Qed.

Lemma zipped_fields_plain (fieldnames row : list string) :
  Forall plain_item (zip (map Some fieldnames) (map Csv.RStr row)).
Proof.
  revert row. induction fieldnames as [| f fs IH]; intros [| x xs]; simpl;
    try constructor; [| apply IH].
  split; simpl; [discriminate | intros l; discriminate].
Qed.

Lemma fill_invariant (P : Dict.dict (option string) Csv.row_value -> Prop)
      (keys : list string) (d : Dict.dict (option string) Csv.row_value) :
  (forall d key, P d -> P (Dict.set (Some key) Csv.RNone d)) -> P d ->
  P (fold_left (fun d key => Dict.set (Some key) Csv.RNone d) keys d).
Proof.
  intros Hstep. revert d. induction keys as [| key r IH]; intros d Hd; simpl; auto.
Qed.

Lemma fill_get (keys : list string) (key : string)
      (d : Dict.dict (option string) Csv.row_value) :
  key ∈ keys ->
  Dict.get (Some key)
           (fold_left (fun d key => Dict.set (Some key) Csv.RNone d) keys d)
  = Some Csv.RNone.
Proof.
  intros Hin. revert d. induction Hin as [key r | key x r Hin IH]; intros d; simpl.
  - apply (fill_invariant (fun d => Dict.get (Some key) d = Some Csv.RNone)).
    + intros d' key' Hd'. destruct (decide (key' = key)) as [-> | Hne].
      * apply get_set_eq.
      * rewrite get_set_ne; [exact Hd' | congruence].
    + apply get_set_eq.
  - apply IH.
Qed.

(** A row with no more fields than the header gives a dictionary of plain
    items with distinct keys. *)
Lemma dict_row_plain (fieldnames row : list string) :
  (length row <= length fieldnames)%nat ->
  Forall plain_item (Csv.dict_row fieldnames row)
  /\ NoDup (Dict.keys (Csv.dict_row fieldnames row)).
Proof.
  intros Hlen. unfold Csv.dict_row.
  destruct (of_pairs_invariant plain_item _ (zipped_fields_plain fieldnames row))
    as [Hplain Hnd].
  destruct (Nat.ltb_spec (length fieldnames) (length row)) as [Hlt | _]; [lia |].
  destruct (length row <? length fieldnames)%nat; [| by split].
  apply (fill_invariant
           (fun d => Forall plain_item d /\ NoDup (Dict.keys d))); [| by split].
  intros d key [Hd Hk]. split; [| by apply NoDup_keys_set].
  apply Forall_set; [exact Hd |]. split; simpl; [discriminate | intros l; discriminate].
Qed.

Lemma dict_row_missing (fieldnames row : list string) (key : string) :
  key ∈ drop (length row) fieldnames ->
  Dict.get (Some key) (Csv.dict_row fieldnames row) = Some Csv.RNone.
Proof.
  intros Hin. unfold Csv.dict_row.
  assert (Hlt : (length row < length fieldnames)%nat).
  { destruct (Nat.lt_ge_cases (length row) (length fieldnames)) as [Hlt | Hge];
      [exact Hlt |].
    rewrite drop_ge in Hin; [by apply elem_of_nil in Hin | exact Hge]. }
  destruct (Nat.ltb_spec (length fieldnames) (length row)) as [Hgt | _]; [lia |].
  destruct (Nat.ltb_spec (length row) (length fieldnames)) as [_ | Hge]; [| lia].
  by apply fill_get.
Qed.

(** A row with more fields than the header cannot be converted. *)
Lemma dict_row_surplus (fieldnames row : list string)
      (acc : Dict.dict (option string) pyvalue) :
  (length fieldnames < length row)%nat ->
  convert_items (Csv.dict_row fieldnames row) acc
  = Raise (AttributeError strip_message).
Proof.
  intros Hlt. unfold Csv.dict_row.
  destruct (of_pairs_invariant plain_item _ (zipped_fields_plain fieldnames row))
    as [Hplain _].
  destruct (Nat.ltb_spec (length fieldnames) (length row)) as [_ | Hge]; [| lia].
  destruct (drop (length fieldnames) row) as [| x l] eqn:Hdrop.
  { apply (f_equal length) in Hdrop. rewrite length_drop in Hdrop. simpl in Hdrop. lia. }
  rewrite set_fresh.
  - by apply convert_items_surplus.
  - intros Hin. apply list_elem_of_fmap in Hin as ([k v] & Hk & Hin).
    rewrite Forall_forall in Hplain. destruct (Hplain (k, v)) as [Hsome _].
    + exact Hin.
    + simpl in *. congruence.
Qed.

Lemma convert_rows_surplus (fieldnames : list string) (rows : list (list string))
      (err : option string) (acc : list (Dict.dict (option string) pyvalue)) :
  (exists row, row ∈ rows /\ (length fieldnames < length row)%nat) ->
  convert_rows fieldnames rows err acc = Raise (AttributeError strip_message).
Proof.
  intros (long & Hin & Hlong). revert acc.
  induction rows as [| row rest IH]; intros acc; [by apply elem_of_nil in Hin |].
  simpl. destruct (Csv.is_blank row) eqn:Hblank.
  - apply elem_of_cons in Hin as [-> | Hin]; [| by apply IH].
    destruct row; [simpl in Hlong; lia | discriminate].
  - destruct (convert_items (Csv.dict_row fieldnames row) []) as [rec | e] eqn:Hrow;
      simpl.
    + apply elem_of_cons in Hin as [-> | Hin]; [| by apply IH].
      rewrite (dict_row_surplus fieldnames row [] Hlong) in Hrow. discriminate.
    + f_equal. by apply (convert_items_raises _ _ _ Hrow).
Qed.

Lemma convert_rows_fitting (fieldnames : list string) (rows : list (list string))
      (acc : list (Dict.dict (option string) pyvalue)) :
  Forall (fun row => (length row <= length fieldnames)%nat) rows ->
  exists records,
    convert_rows fieldnames rows None acc = Ok (acc ++ records)
    /\ Forall2 (fun row rec => convert_items (Csv.dict_row fieldnames row) [] = Ok rec)
               (List.filter not_blank rows) records.
Proof.
  intros Hall. revert acc.
  induction Hall as [| row rest Hrow Hrest IH]; intros acc; simpl.
  - exists []. split; [by rewrite app_nil_r | constructor].
  - unfold not_blank at 1. destruct (Csv.is_blank row) eqn:Hblank; simpl; [apply IH |].
    destruct (dict_row_plain fieldnames row Hrow) as [Hplain _].
    destruct (convert_items_plain _ [] Hplain) as [rec Hrec]. rewrite Hrec. simpl.
    destruct (IH (acc ++ [rec])) as (records & Hrun & Hrel).
    exists (rec :: records). split.
    + rewrite Hrun, <- app_assoc. reflexivity.
    + by constructor.
Qed.

Lemma short_row_record (fieldnames row : list string)
      (rec : Dict.dict (option string) pyvalue) (key : string) :
  convert_items (Csv.dict_row fieldnames row) [] = Ok rec ->
  key ∈ drop (length row) fieldnames ->
  Dict.get (Some key) rec = Some PyNone.
Proof.
  intros Hrec Hin.
  assert (Hlen : (length row <= length fieldnames)%nat).
  { destruct (Nat.le_gt_cases (length row) (length fieldnames)) as [Hle | Hgt];
      [exact Hle |].
    rewrite (dict_row_surplus fieldnames row [] Hgt) in Hrec. discriminate. }
  destruct (dict_row_plain fieldnames row Hlen) as [_ Hnd].
  destruct (convert_items_get _ _ _ _ _ Hnd Hrec (dict_row_missing _ _ _ Hin))
    as (pv & Hpv & Hget).
  simpl in Hpv. by injection Hpv as <-.
Qed.

Lemma parse_csv_output_rows (csv_output : string) (fieldnames : list string)
      (data : list (list string)) (err : option string) :
  is_empty (strip csv_output) = false ->
  Csv.read csv_output = (fieldnames :: data, err) ->
  _parse_csv_output csv_output
  = match convert_rows fieldnames data err [] with
    | Ok results => Ok results
    | Raise e => Raise (CodeMaatError ("Failed to parse CSV output: " +:+ exn_str e))
    end.
Proof.
  intros Hstrip Hread. unfold _parse_csv_output. rewrite Hstrip, Hread. reflexivity.
Qed.

(** C9: let the reader yield a header of n names followed by data rows.
    If some data row has more than n fields, the parse as a whole raises the
    parse [CodeMaatError], because the list of surplus fields has no [strip].
    If no data row has more than n fields and the reader meets no error, the
    parse returns one record per non-blank data row, in which every column
    beyond the fields of the row is [None]. *)
Theorem row_shape_policy
        (csv_output : string) (fieldnames : list string)
        (data : list (list string)) (err : option string) :
  is_empty (strip csv_output) = false ->
  Csv.read csv_output = (fieldnames :: data, err) ->
  ((exists row, row ∈ data /\ (length fieldnames < length row)%nat) ->
     _parse_csv_output csv_output
     = Raise (CodeMaatError
                "Failed to parse CSV output: 'list' object has no attribute 'strip'"))
  /\ (Forall (fun row => (length row <= length fieldnames)%nat) data -> err = None ->
        exists records,
          _parse_csv_output csv_output = Ok records
          /\ Forall2 (fun row rec =>
                        convert_items (Csv.dict_row fieldnames row) [] = Ok rec
                        /\ forall key, key ∈ drop (length row) fieldnames ->
                                       Dict.get (Some key) rec = Some PyNone)
                     (List.filter not_blank data) records).
Proof.
  intros Hstrip Hread.
  rewrite (parse_csv_output_rows csv_output fieldnames data err Hstrip Hread). split.
  - intros Hlong. by rewrite (convert_rows_surplus fieldnames data err [] Hlong).
  - intros Hfit ->.
    destruct (convert_rows_fitting fieldnames data [] Hfit) as (records & Hrun & Hrel).
    exists records. rewrite Hrun. split; [reflexivity |].
    eapply Forall2_impl; [exact Hrel |]. intros row rec Hrec. split; [exact Hrec |].
    intros key Hkey. by apply (short_row_record fieldnames row).
Qed.

Lemma row_shape_policy_witness :
  _parse_csv_output ("entity,n-authors,n-revs" +:+ Sample.nl +:+ "a.py,3,7,9" +:+ Sample.nl)
  = Raise (CodeMaatError
             "Failed to parse CSV output: 'list' object has no attribute 'strip'")
  /\ exists records,
       _parse_csv_output ("entity,n-authors,n-revs" +:+ Sample.nl +:+ "a.py" +:+ Sample.nl)
       = Ok records
       /\ Forall2 (fun row rec =>
                     convert_items
                       (Csv.dict_row ["entity"; "n-authors"; "n-revs"] row) [] = Ok rec
                     /\ forall key,
                          key ∈ drop (length row) ["entity"; "n-authors"; "n-revs"] ->
                          Dict.get (Some key) rec = Some PyNone)
                  (List.filter not_blank [["a.py"]]) records.
Proof.
  split.
  - refine (proj1 (row_shape_policy
              ("entity,n-authors,n-revs" +:+ Sample.nl +:+ "a.py,3,7,9" +:+ Sample.nl)
              ["entity"; "n-authors"; "n-revs"] [["a.py"; "3"; "7"; "9"]] None _ _) _).
    + reflexivity.
    + vm_compute. reflexivity.
    + exists ["a.py"; "3"; "7"; "9"]. split; [apply list_elem_of_here | simpl; lia].
  - refine (proj2 (row_shape_policy
              ("entity,n-authors,n-revs" +:+ Sample.nl +:+ "a.py" +:+ Sample.nl)
              ["entity"; "n-authors"; "n-revs"] [["a.py"]] None _ _) _ _).
    + reflexivity.
    + vm_compute. reflexivity.
    + repeat constructor.
    + reflexivity.
Defined.

(** C2: the text of a field is converted by the ordered fallback: [None]
    when its stripped form is empty, else the integer [int()] reads from it,
    else the float [float()] reads from it, else its stripped form; and that
    is the value every field of a parsed row gets in the record.  So ["07"]
    gives the integer 7, ["3.5"] the float 35e-1, ["  hi  "] the string
    ["hi"] and [""] gives [None]. *)
Theorem convert_value_fallback :
  (forall value : string,
      _convert_value (Csv.RStr value)
      = Ok (if is_empty (strip value) then PyNone
            else match py_int value with
                 | Some n => PyInt n
                 | None =>
                     match py_float value with
                     | Some f => PyFloat f
                     | None => PyStr (strip value)
                     end
                 end))
  /\ (forall fieldnames row rec key value,
        convert_items (Csv.dict_row fieldnames row) [] = Ok rec ->
        Dict.get (Some key) (Csv.dict_row fieldnames row) = Some (Csv.RStr value) ->
        Dict.get (Some key) rec = Some (field_value value))
  /\ _convert_value (Csv.RStr "07") = Ok (PyInt 7)
  /\ _convert_value (Csv.RStr "3.5") = Ok (PyFloat (FDec false 35 (-1)))
  /\ _convert_value (Csv.RStr "  hi  ") = Ok (PyStr "hi")
  /\ _convert_value (Csv.RStr "") = Ok PyNone.
Proof.
  split; [exact convert_value_str | split; [| repeat split; reflexivity]].
  intros fieldnames row rec key value Hrec Hget.
  assert (Hlen : (length row <= length fieldnames)%nat).
  { destruct (Nat.le_gt_cases (length row) (length fieldnames)) as [Hle | Hgt];
      [exact Hle |].
    rewrite (dict_row_surplus fieldnames row [] Hgt) in Hrec. discriminate. }
  destruct (dict_row_plain fieldnames row Hlen) as [_ Hnd].
  destruct (convert_items_get _ _ _ _ _ Hnd Hrec Hget) as (pv & Hpv & Hfound).
  rewrite convert_value_str in Hpv. by injection Hpv as <-.
Qed.

Lemma convert_value_fallback_witness :
  Dict.get (Some "degree")
           [(Some "entity", PyStr "a.py"); (Some "degree", PyInt 7)]
  = Some (field_value "07").
Proof.
  refine (proj1 (proj2 convert_value_fallback)
            ["entity"; "degree"] [" a.py "; "07"] _ "degree" "07" _ _);
    reflexivity.
Defined.

(** ** Paths *)

Lemma append_cons (c : ascii) (s t : string) : String c s +:+ t = String c (s +:+ t).
Proof. reflexivity. Qed.

Lemma append_nil (t : string) : "" +:+ t = t.
Proof. reflexivity. Qed.

Lemma split_slash_no_slash (s : string) :
  Forall (fun x => no_slash x = true) (PosixPath.split_slash s).
Proof.
  induction s as [| c r IH]; simpl; [repeat constructor |].
  destruct (PosixPath.is_slash c) eqn:Hc; [by constructor |].
  destruct (PosixPath.split_slash r) as [| x xs]; [repeat constructor; simpl; by rewrite Hc |].
  apply Forall_cons in IH as [Hx Hxs]. constructor; [| exact Hxs].
  simpl. by rewrite Hc, Hx.
Qed.

Lemma of_str_sound (s : string) : sound (PosixPath.of_str s).
Proof.
  split.
  - simpl. destruct (PosixPath.leading_slashes s) as [| [| [| n]]]; auto.
  - simpl. pose proof (split_slash_no_slash s) as Hall.
    induction Hall as [| x xs Hx Hxs IH]; simpl; [constructor |].
    destruct (PosixPath.is_component x) eqn:Hcomp; [| exact IH].
    constructor; [| exact IH]. unfold component. by rewrite Hcomp, Hx.
Qed.

Lemma removelast_Forall {A} (P : A -> Prop) (l : list A) :
  Forall P l -> Forall P (removelast l).
Proof.
  induction 1 as [| x xs Hx Hxs IH]; simpl; [constructor |].
  destruct xs; [constructor | by constructor].
Qed.

Lemma parent_sound (p : PosixPath.path) : sound p -> sound (PosixPath.parent p).
Proof. intros [Hroot Hparts]. split; [exact Hroot | by apply removelast_Forall]. Qed.

Lemma collapse_Forall (P : string -> Prop) (ps stack : list string) :
  Forall P stack -> Forall P ps -> Forall P (PosixPath.collapse stack ps).
Proof.
  intros Hstack Hps. revert stack Hstack.
  induction Hps as [| p r Hp Hr IH]; intros stack Hstack; simpl.
  - by apply Forall_rev.
  - destruct (p =? "..")%string.
    + apply IH. destruct Hstack; [constructor | assumption].
    + apply IH. by constructor.
Qed.

Lemma is_absolute_root (p : PosixPath.path) :
  PosixPath.is_absolute p = false <-> PosixPath.root p = "".
Proof.
  unfold PosixPath.is_absolute. destruct (PosixPath.root p); simpl; split;
    congruence.
Qed.

Lemma resolve_rooted (cwd : string) (p : PosixPath.path) :
  sound p -> rooted (PosixPath.resolve cwd p).
Proof.
  intros [Hroot Hparts]. unfold PosixPath.resolve.
  destruct (PosixPath.is_absolute p) eqn:Habs.
  - split; simpl.
    + destruct Hroot as [Hroot | Hroot]; [| exact Hroot].
      apply is_absolute_root in Hroot. congruence.
    + apply collapse_Forall; [constructor | exact Hparts].
  - split; simpl; [by left |].
    apply collapse_Forall; [constructor |].
    apply Forall_app. split; [apply (of_str_sound cwd) | exact Hparts].
Qed.

Lemma joinpath_sound (a b : PosixPath.path) :
  sound a -> sound b -> sound (PosixPath.joinpath a b).
Proof.
  intros [Hra Hpa] [Hrb Hpb]. unfold PosixPath.joinpath.
  destruct (PosixPath.is_absolute b); [by split |].
  split; simpl; [exact Hra | apply Forall_app; by split].
Qed.

Lemma split_slash_whole (x : string) :
  no_slash x = true -> PosixPath.split_slash x = [x].
Proof.
  induction x as [| c r IH]; simpl; [reflexivity |].
  intros Hx. apply andb_true_iff in Hx as [Hc Hr].
  apply negb_true_iff in Hc. rewrite Hc, (IH Hr). reflexivity.
Qed.

Lemma split_slash_head (x rest : string) :
  no_slash x = true ->
  PosixPath.split_slash (x +:+ String "/" rest) = x :: PosixPath.split_slash rest.
Proof.
  induction x as [| c r IH]; intros Hx.
  - reflexivity.
  - simpl in Hx. apply andb_true_iff in Hx as [Hc Hr]. apply negb_true_iff in Hc.
    rewrite append_cons. simpl. rewrite Hc, (IH Hr). reflexivity.
Qed.

Lemma join_cons2 (x y : string) (r : list string) :
  join "/" (x :: y :: r) = x +:+ String "/" (join "/" (y :: r)).
Proof. reflexivity. Qed.

Lemma components_of_join (ps : list string) :
  Forall (fun x => component x = true) ps ->
  List.filter PosixPath.is_component (PosixPath.split_slash (join "/" ps)) = ps.
Proof.
  induction 1 as [| x xs Hx Hxs IH]; [reflexivity |].
  unfold component in Hx. apply andb_true_iff in Hx as [Hcomp Hns].
  destruct xs as [| y r].
  - simpl. rewrite (split_slash_whole x Hns). simpl. by rewrite Hcomp.
  - rewrite join_cons2, (split_slash_head _ _ Hns).
    cbn [List.filter]. rewrite Hcomp, IH. reflexivity.
Qed.

Lemma join_leading_slashes (ps : list string) :
  Forall (fun x => component x = true) ps ->
  PosixPath.leading_slashes (join "/" ps) = O.
Proof.
  intros Hall. destruct Hall as [| x xs Hx Hxs]; [reflexivity |].
  unfold component in Hx. apply andb_true_iff in Hx as [Hcomp Hns].
  destruct x as [| c x']; [discriminate |].
  simpl in Hns. apply andb_true_iff in Hns as [Hc _]. apply negb_true_iff in Hc.
  destruct xs; [simpl; by rewrite Hc |].
  rewrite join_cons2, append_cons. simpl. by rewrite Hc.
Qed.

(** Reading back the text of a sound absolute path gives the path. *)
Lemma of_str_to_str (p : PosixPath.path) :
  rooted p -> PosixPath.of_str (PosixPath.to_str p) = p.
Proof.
  destruct p as [root parts]. intros [Hroot Hparts]. simpl in Hroot, Hparts.
  unfold PosixPath.to_str, PosixPath.of_str. cbn [PosixPath.root PosixPath.parts].
  destruct Hroot as [-> | ->]; cbn [is_empty andb].
  - rewrite append_cons, append_nil. cbn [PosixPath.leading_slashes PosixPath.split_slash].
    change (PosixPath.is_slash "/") with true. cbn iota.
    rewrite (join_leading_slashes parts Hparts).
    cbn [List.filter PosixPath.is_component is_empty negb andb].
    by rewrite (components_of_join parts Hparts).
  - rewrite !append_cons, append_nil.
    cbn [PosixPath.leading_slashes PosixPath.split_slash].
    change (PosixPath.is_slash "/") with true. cbn iota.
    rewrite (join_leading_slashes parts Hparts).
    cbn [List.filter PosixPath.is_component is_empty negb andb].
    by rewrite (components_of_join parts Hparts).
Qed.

Lemma rooted_absolute (p : PosixPath.path) :
  rooted p -> PosixPath.is_absolute p = true.
Proof.
  intros [[Hroot | Hroot] _]; unfold PosixPath.is_absolute; by rewrite Hroot.
Qed.

Lemma base_dir_sound (h : host) : sound (base_dir h).
Proof. unfold base_dir. apply parent_sound, parent_sound, of_str_sound. Qed.

(** ** Resolving the configuration *)

Lemma load_config_defaults (h : host) (config_path : option string) (w : world) :
  fs w !! config_file h config_path = None
  \/ (exists text,
        fs w !! config_file h config_path = Some (File text)
        /\ denied h (config_file h config_path) = false
        /\ json_loads h text = None) ->
  _load_config h config_path w
  = (Returned {| jar_path := default_jar_path; java_executable := "java";
                 java_opts := default_java_opts |}, w).
Proof.
  unfold _load_config, try_except, bind, read_text.
  intros [Hnone | (text & Hfile & Hdenied & Hjson)].
  - rewrite Hnone. reflexivity.
  - rewrite Hfile, Hdenied, Hjson. reflexivity.
Qed.

Lemma validate_config_run (h : host) (cfg : CodeMaatConfig) (w : world) :
  _validate_config h cfg w
  = if bool_decide (is_Some (fs w !! PosixPath.to_str (resolved_jar h cfg)))
    then (Returned {| jar_path := PosixPath.to_str (resolved_jar h cfg);
                      java_executable := java_executable cfg;
                      java_opts := java_opts cfg |}, w)
    else (Raised (CodeMaatError ("Code Maat JAR not found at: " +:+
                                 PosixPath.to_str (resolved_jar h cfg))), w).
Proof.
  unfold _validate_config, bind. fold (resolved_jar h cfg). rewrite path_exists_run.
  destruct (bool_decide _); reflexivity.
Qed.

Lemma resolved_jar_relative (h : host) (cfg : CodeMaatConfig) :
  PosixPath.is_absolute (PosixPath.of_str (jar_path cfg)) = false ->
  resolved_jar h cfg
  = PosixPath.resolve (cwd h)
      (PosixPath.joinpath (base_dir h) (PosixPath.of_str (jar_path cfg)))
  /\ rooted (resolved_jar h cfg).
Proof.
  intros Hrel. unfold resolved_jar. rewrite Hrel. split; [reflexivity |].
  apply resolve_rooted, joinpath_sound; [apply base_dir_sound | apply of_str_sound].
Qed.

Lemma resolved_jar_settled (h : host) (cfg : CodeMaatConfig) (p : PosixPath.path) :
  rooted p -> jar_path cfg = PosixPath.to_str p -> resolved_jar h cfg = p.
Proof.
  intros Hp Hjar. unfold resolved_jar. rewrite Hjar, (of_str_to_str p Hp).
  by rewrite (rooted_absolute p Hp).
Qed.

(** C8: a configuration document that is absent, or that [json] cannot
    read, gives the built-in defaults.  A relative engine path is rewritten
    to the absolute path it denotes below the base directory, and validating
    the rewritten configuration again changes nothing.  When nothing exists
    at the resolved engine path, validation, and with it the construction of
    the wrapper, raises [CodeMaatError]. *)
Theorem config_resolution (h : host) :
  (forall config_path w,
      fs w !! config_file h config_path = None
      \/ (exists text,
            fs w !! config_file h config_path = Some (File text)
            /\ denied h (config_file h config_path) = false
            /\ json_loads h text = None) ->
      _load_config h config_path w
      = (Returned {| jar_path := "../target/code-maat-1.0.5-SNAPSHOT-standalone.jar";
                     java_executable := "java";
                     java_opts := ["-Xmx4g"; "-Djava.awt.headless=true"; "-Xss512M"] |},
         w))
  /\ (forall cfg w,
        PosixPath.is_absolute (PosixPath.of_str (jar_path cfg)) = false ->
        is_Some (fs w !! PosixPath.to_str (resolved_jar h cfg)) ->
        exists cfg',
          _validate_config h cfg w = (Returned cfg', w)
          /\ jar_path cfg'
             = PosixPath.to_str
                 (PosixPath.resolve (cwd h)
                    (PosixPath.joinpath (base_dir h) (PosixPath.of_str (jar_path cfg))))
          /\ PosixPath.is_absolute (PosixPath.of_str (jar_path cfg')) = true
          /\ _validate_config h cfg' w = (Returned cfg', w))
  /\ (forall cfg w,
        fs w !! PosixPath.to_str (resolved_jar h cfg) = None ->
        _validate_config h cfg w
        = (Raised (CodeMaatError ("Code Maat JAR not found at: " +:+
                                  PosixPath.to_str (resolved_jar h cfg))), w))
  /\ (forall config_path cfg w w',
        _load_config h config_path w = (Returned cfg, w') ->
        fs w' !! PosixPath.to_str (resolved_jar h cfg) = None ->
        __init__ h config_path w
        = (Raised (CodeMaatError ("Code Maat JAR not found at: " +:+
                                  PosixPath.to_str (resolved_jar h cfg))), w')).
Proof.
  assert (Hmissing : forall cfg w,
            fs w !! PosixPath.to_str (resolved_jar h cfg) = None ->
            _validate_config h cfg w
            = (Raised (CodeMaatError ("Code Maat JAR not found at: " +:+
                                      PosixPath.to_str (resolved_jar h cfg))), w)).
  { intros cfg w Hnone. rewrite validate_config_run, Hnone.
    rewrite bool_decide_eq_false_2; [reflexivity | by intros [x Hx]]. }
  split; [exact (load_config_defaults h) | split; [| split; [exact Hmissing |]]].
  - intros cfg w Hrel Hfound.
    destruct (resolved_jar_relative h cfg Hrel) as [Htarget Hrooted].
    exists {| jar_path := PosixPath.to_str (resolved_jar h cfg);
              java_executable := java_executable cfg;
              java_opts := java_opts cfg |}.
    split; [| split; [| split]].
    + rewrite validate_config_run. by rewrite (bool_decide_eq_true_2 _ Hfound).
    + cbn [jar_path]. by rewrite Htarget.
    + cbn [jar_path]. rewrite (of_str_to_str _ Hrooted).
      by apply rooted_absolute.
    + rewrite validate_config_run.
      rewrite (resolved_jar_settled h
                 {| jar_path := PosixPath.to_str (resolved_jar h cfg);
                    java_executable := java_executable cfg;
                    java_opts := java_opts cfg |}
                 (resolved_jar h cfg) Hrooted eq_refl).
      by rewrite (bool_decide_eq_true_2 _ Hfound).
  - intros config_path cfg w w' Hload Hnone. unfold __init__. unfold bind at 1.
    rewrite Hload. unfold bind. by rewrite (Hmissing cfg w' Hnone).
Qed.

Lemma config_resolution_witness :
  _load_config Sample.sample_host None Sample.sample_world
  = (Returned {| jar_path := "../target/code-maat-1.0.5-SNAPSHOT-standalone.jar";
                 java_executable := "java";
                 java_opts := ["-Xmx4g"; "-Djava.awt.headless=true"; "-Xss512M"] |},
     Sample.sample_world)
  /\ exists cfg',
       _validate_config Sample.sample_host
         (new_CodeMaatConfig default_jar_path None None) Sample.sample_world
       = (Returned cfg', Sample.sample_world)
       /\ jar_path cfg'
          = PosixPath.to_str
              (PosixPath.resolve (cwd Sample.sample_host)
                 (PosixPath.joinpath (base_dir Sample.sample_host)
                    (PosixPath.of_str
                       (jar_path (new_CodeMaatConfig default_jar_path None None)))))
       /\ PosixPath.is_absolute (PosixPath.of_str (jar_path cfg')) = true
       /\ _validate_config Sample.sample_host cfg' Sample.sample_world
          = (Returned cfg', Sample.sample_world).
Proof.
  split.
  - apply (proj1 (config_resolution Sample.sample_host) None Sample.sample_world).
    left. vm_compute. reflexivity.
  - apply (proj1 (proj2 (config_resolution Sample.sample_host))
             (new_CodeMaatConfig default_jar_path None None) Sample.sample_world).
    + reflexivity.
    + vm_compute. eexists. reflexivity.
Defined.

(** * Further properties of the module *)

(** ** [validate_inputs] *)

Lemma validate_inputs_cases (h : host) (log_file vcs analysis : string) (w : world) :
  validate_inputs h log_file vcs analysis w = (Returned true, w)
  \/ exists msg,
       validate_inputs h log_file vcs analysis w = (Raised (CodeMaatError msg), w).
Proof.
  unfold validate_inputs, bind. rewrite path_exists_run.
  destruct (bool_decide (is_Some (fs w !! log_file))); cbn [negb]; [| eauto].
  destruct (bool_decide (vcs ∈ SUPPORTED_VCS)); cbn [negb]; [| eauto].
  destruct (bool_decide (analysis ∈ SUPPORTED_ANALYSES)); cbn [negb]; eauto.
Qed.

Lemma validate_inputs_returned (h : host) (log_file vcs analysis : string) (w : world) :
  validate_inputs h log_file vcs analysis w = (Returned true, w) ->
  is_Some (fs w !! log_file) /\ vcs ∈ SUPPORTED_VCS /\ analysis ∈ SUPPORTED_ANALYSES.
Proof.
  intros Hrun.
  destruct (decide (is_Some (fs w !! log_file))) as [Hlog | Hlog];
    [destruct (decide (vcs ∈ SUPPORTED_VCS)) as [Hvcs | Hvcs];
     [destruct (decide (analysis ∈ SUPPORTED_ANALYSES)) as [Han | Han]; [tauto |] |] |].
  - destruct (validate_inputs_rejects h log_file vcs analysis w) as (msg & Hraise & _);
      [tauto | congruence].
  - destruct (validate_inputs_rejects h log_file vcs analysis w) as (msg & Hraise & _);
      [tauto | congruence].
  - destruct (validate_inputs_rejects h log_file vcs analysis w) as (msg & Hraise & _);
      [| congruence].
    left. destruct (fs w !! log_file) eqn:Hlook; [| reflexivity].
    destruct Hlog. by eexists.
Qed.

(** [validate_inputs] returns exactly when the log file exists and both
    kinds are supported, and what it returns is [True]: a refusal is always
    an exception, never [False]. *)
Theorem validate_inputs_accepts_iff
        (h : host) (log_file vcs analysis : string) (w : world) :
  (validate_inputs h log_file vcs analysis w = (Returned true, w)
   <-> is_Some (fs w !! log_file)
       /\ vcs ∈ SUPPORTED_VCS /\ analysis ∈ SUPPORTED_ANALYSES)
  /\ (forall b w', validate_inputs h log_file vcs analysis w = (Returned b, w') ->
                   b = true /\ w' = w).
Proof.
  split; [split |].
  - apply validate_inputs_returned.
  - intros (Hlog & Hvcs & Han). by apply validate_inputs_ok.
  - intros b w' Hrun.
    destruct (validate_inputs_cases h log_file vcs analysis w) as [Hok | (msg & Hraise)];
      rewrite Hrun in *; [by injection Hok as <- <- | discriminate].
Qed.

(** The checks run in a fixed order: a missing log file is what is reported
    even when the VCS kind or the analysis kind is wrong as well, and a wrong
    VCS kind is reported before a wrong analysis kind. *)
Theorem validate_inputs_reports_first_failure
        (h : host) (log_file vcs analysis : string) (w : world) :
  (fs w !! log_file = None ->
     validate_inputs h log_file vcs analysis w
     = (Raised (CodeMaatError ("Log file not found: " +:+ log_file)), w))
  /\ (is_Some (fs w !! log_file) -> vcs ∉ SUPPORTED_VCS ->
        exists rest,
          validate_inputs h log_file vcs analysis w
          = (Raised (CodeMaatError ("Unsupported VCS: " +:+ vcs +:+ rest)), w)).
Proof.
  unfold validate_inputs, bind. rewrite path_exists_run. split.
  - intros Hnone. rewrite Hnone.
    rewrite bool_decide_eq_false_2; [reflexivity | by intros [x Hx]].
  - intros Hlog Hvcs. rewrite (bool_decide_eq_true_2 _ Hlog). cbn [negb].
    rewrite (bool_decide_eq_false_2 _ Hvcs). cbn [negb]. eauto.
Qed.

Lemma validate_inputs_reports_first_failure_witness :
  validate_inputs Sample.sample_host "/nowhere.log" "cvs" "nothing" Sample.sample_world
  = (Raised (CodeMaatError ("Log file not found: " +:+ "/nowhere.log")),
     Sample.sample_world).
Proof.
  apply (proj1 (validate_inputs_reports_first_failure Sample.sample_host
                  "/nowhere.log" "cvs" "nothing" Sample.sample_world)).
  vm_compute. reflexivity.
Defined.

(** ** [run_analysis] as a whole *)

Lemma parse_csv_output_raises (csv_output : string) (e : pyexn) :
  _parse_csv_output csv_output = Raise e ->
  exists detail, e = CodeMaatError ("Failed to parse CSV output: " +:+ detail).
Proof.
  unfold _parse_csv_output. destruct (is_empty (strip csv_output)); [discriminate |].
  destruct (Csv.read csv_output) as [rows err].
  destruct (read_records rows err) as [results | e']; [discriminate |].
  intros [= <-]. eauto.
Qed.

(** A valid request whose engine exits with status zero within the 300
    seconds returns what [_parse_csv_output] makes of the captured standard
    output; [subprocess.run] has been called once, with the built command, no
    working directory and the 300 second limit, and no file has changed. *)
Theorem run_analysis_success
        (h : host) (self : CodeMaatWrapper) (log_file vcs analysis : string)
        (kwargs : Dict.dict string param_value) (w : world)
        (t : N) (out err : string) :
  is_Some (fs w !! log_file) -> vcs ∈ SUPPORTED_VCS -> analysis ∈ SUPPORTED_ANALYSES ->
  process h (analysis_cmd self log_file vcs analysis kwargs) None = Exits t 0 out err ->
  (t <= 300)%N ->
  run_analysis h self log_file vcs analysis kwargs w
  = (match _parse_csv_output out with
     | Ok records => Returned records
     | Raise e => Raised e
     end,
     {| fs := fs w;
        invocations := invocations w ++
          [{| inv_args := analysis_cmd self log_file vcs analysis kwargs;
              inv_cwd := None; inv_timeout := Some 300%N |}] |}).
Proof.
  intros Hlog Hvcs Han Hproc Ht.
  rewrite (run_analysis_validated h self log_file vcs analysis kwargs w Hlog Hvcs Han).
  unfold try_except, bind, subprocess_run. rewrite Hproc.
  destruct (N.ltb_spec 300 t) as [Hlt | _]; [lia |]. cbn [Z.eqb stdout].
  destruct (_parse_csv_output out) as [records | e] eqn:Hparse; cbn [lift].
  - reflexivity.
  - destruct (parse_csv_output_raises out e Hparse) as [detail Hdetail].
    rewrite Hdetail. reflexivity.
Qed.

Lemma run_analysis_success_witness :
  run_analysis Sample.sample_host Sample.sample_wrapper "/srv/history.log" "git2"
               "summary" [] Sample.sample_world
  = (match _parse_csv_output Sample.summary_output with
     | Ok records => Returned records
     | Raise e => Raised e
     end,
     {| fs := fs Sample.sample_world;
        invocations := invocations Sample.sample_world ++
          [{| inv_args := analysis_cmd Sample.sample_wrapper "/srv/history.log"
                                        "git2" "summary" [];
              inv_cwd := None; inv_timeout := Some 300%N |}] |}).
Proof.
  apply (run_analysis_success Sample.sample_host Sample.sample_wrapper
           "/srv/history.log" "git2" "summary" [] Sample.sample_world 2%N
           Sample.summary_output "").
  - vm_compute. eexists. reflexivity.
  - apply (bool_decide_eq_true_1 _). vm_compute. reflexivity.
  - apply (bool_decide_eq_true_1 _). vm_compute. reflexivity.
  - reflexivity.
  - lia.
Defined.

Lemma run_analysis_outcomes
      (h : host) (self : CodeMaatWrapper) (log_file vcs analysis : string)
      (kwargs : Dict.dict string param_value) (w : world) :
  let run := run_analysis h self log_file vcs analysis kwargs w in
  let called :=
    {| fs := fs w;
       invocations := invocations w ++
         [{| inv_args := analysis_cmd self log_file vcs analysis kwargs;
             inv_cwd := None; inv_timeout := Some 300%N |}] |} in
  (exists msg, run = (Raised (CodeMaatError msg), w))
  \/ (exists msg, run = (Raised (CodeMaatError msg), called))
  \/ (exists records, run = (Returned records, called))
  \/ (exists e,
        process h (analysis_cmd self log_file vcs analysis kwargs) None = Cannot_start e
        /\ run = (Raised e, called)).
Proof.
  cbv zeta.
  destruct (validate_inputs_cases h log_file vcs analysis w) as [Hv | (msg & Hv)].
  2: { left. exists msg. unfold run_analysis, bind. by rewrite Hv. }
  apply validate_inputs_returned in Hv as (Hlog & Hvcs & Han).
  rewrite (run_analysis_validated h self log_file vcs analysis kwargs w Hlog Hvcs Han).
  right. unfold try_except, bind, subprocess_run.
  destruct (process h (analysis_cmd self log_file vcs analysis kwargs) None)
    as [t rc out err | | e0].
  - destruct (300 <? t)%N; [left; eauto |].
    destruct (rc =? 0)%Z; [| left; eauto].
    cbn [stdout]. destruct (_parse_csv_output out) as [records | e'] eqn:Hparse;
      cbn [lift]; [right; left; eauto |].
    destruct (parse_csv_output_raises out e' Hparse) as [detail ->]. left; eauto.
  - left; eauto.
  - destruct e0; try (right; right; eexists; split; reflexivity);
      left; eexists; reflexivity.
Qed.


(** [run_analysis] writes no file, and calls [subprocess.run] at most
    once: the calls recorded before are kept, followed by at most one. *)
Theorem run_analysis_frame
        (h : host) (self : CodeMaatWrapper) (log_file vcs analysis : string)
        (kwargs : Dict.dict string param_value) (w : world) :
  fs (snd (run_analysis h self log_file vcs analysis kwargs w)) = fs w
  /\ (invocations (snd (run_analysis h self log_file vcs analysis kwargs w))
      = invocations w
      \/ invocations (snd (run_analysis h self log_file vcs analysis kwargs w))
         = invocations w ++
           [{| inv_args := analysis_cmd self log_file vcs analysis kwargs;
               inv_cwd := None; inv_timeout := Some 300%N |}]).
Proof.
  destruct (run_analysis_outcomes h self log_file vcs analysis kwargs w)
    as [(msg & ->) | [(msg & ->) | [(records & ->) | (e0 & Hproc & ->)]]];
    cbn [snd fs invocations]; auto.
Qed.

(** ** Well-shaped output *)

Lemma of_pairs_distinct {K V : Type} `{EqDecision K} (pairs d : list (K * V)) :
  NoDup (map fst d ++ map fst pairs) ->
  fold_left (fun d kv => Dict.set (fst kv) (snd kv) d) pairs d = d ++ pairs.
Proof.
  revert d. induction pairs as [| [k v] r IH]; intros d Hnd; simpl.
  - by rewrite app_nil_r.
  - assert (Hfresh : k ∉ Dict.keys d).
    { apply NoDup_app in Hnd as (_ & Hdisj & _). intros Hin.
      apply (Hdisj k Hin). apply list_elem_of_here. }
    rewrite (set_fresh d k v Hfresh), IH.
    + by rewrite <- app_assoc.
    + unfold Dict.keys in *. rewrite map_app. simpl. rewrite <- app_assoc. exact Hnd.
Qed.

Lemma keys_zip_fields (names fields : list string) :
  length fields = length names ->
  map fst (zip (map Some names) (map Csv.RStr fields)) = map Some names.
Proof.
  revert fields. induction names as [| n ns IH]; intros [| f fs]; simpl;
    try discriminate; [reflexivity |].
  intros [= Hlen]. by rewrite IH.
Qed.

Lemma convert_items_fields (names fields : list string)
      (acc : Dict.dict (option string) pyvalue) :
  length fields = length names ->
  NoDup (Dict.keys acc ++ map Some names) ->
  convert_items (zip (map Some names) (map Csv.RStr fields)) acc
  = Ok (acc ++ zip (map Some names) (map field_value fields)).
Proof.
  revert fields acc. induction names as [| n ns IH]; intros [| f fs] acc;
    cbn -[_convert_value field_value]; try discriminate.
  - intros _ _. by rewrite app_nil_r.
  - intros [= Hlen] Hnd. rewrite convert_value_str. cbn [rbind].
    assert (Hfresh : Some n ∉ Dict.keys acc).
    { apply NoDup_app in Hnd as (_ & Hdisj & _). intros Hin.
      apply (Hdisj (Some n) Hin). apply list_elem_of_here. }
    rewrite (set_fresh acc (Some n) (field_value f) Hfresh), (IH fs _ Hlen).
    + by rewrite <- app_assoc.
    + unfold Dict.keys in *. rewrite map_app. simpl. rewrite <- app_assoc. exact Hnd.
Qed.

Lemma NoDup_map_Some (names : list string) : NoDup names -> NoDup (map Some names).
Proof.
  intros Hnd. by apply (NoDup_fmap_2 Some).
Qed.

Lemma regular_row_record (fieldnames row : list string) :
  NoDup fieldnames -> length row = length fieldnames ->
  convert_items (Csv.dict_row fieldnames row) []
  = Ok (zip (map Some fieldnames) (map field_value row)).
Proof.
  intros Hnd Hlen. unfold Csv.dict_row, Dict.of_pairs.
  rewrite Hlen, Nat.ltb_irrefl. rewrite of_pairs_distinct.
  - rewrite app_nil_l. rewrite (convert_items_fields fieldnames row [] Hlen);
      [reflexivity |]. simpl. by apply NoDup_map_Some.
  - simpl. rewrite (keys_zip_fields fieldnames row Hlen). by apply NoDup_map_Some.
Qed.

Lemma convert_rows_regular (fieldnames : list string) (rows : list (list string))
      (acc : list (Dict.dict (option string) pyvalue)) :
  NoDup fieldnames ->
  Forall (fun row => length row = length fieldnames) rows ->
  convert_rows fieldnames rows None acc
  = Ok (acc ++ map (fun row => zip (map Some fieldnames) (map field_value row))
                   (List.filter not_blank rows)).
Proof.
  intros Hnd Hall. revert acc.
  induction Hall as [| row rest Hrow Hrest IH]; intros acc; simpl.
  - by rewrite app_nil_r.
  - unfold not_blank at 1. destruct (Csv.is_blank row); simpl; [apply IH |].
    rewrite (regular_row_record fieldnames row Hnd Hrow). simpl.
    rewrite IH, <- app_assoc. reflexivity.
Qed.

(** When the header names are distinct and every data row has as many
    fields as the header, the parser returns one record per non-blank data
    row, in the order of the rows; each record lists the columns in header
    order, every field converted by the ordered fallback. *)
Theorem parse_regular_table
        (csv_output : string) (fieldnames : list string) (data : list (list string)) :
  is_empty (strip csv_output) = false ->
  Csv.read csv_output = (fieldnames :: data, None) ->
  NoDup fieldnames ->
  Forall (fun row => length row = length fieldnames) data ->
  _parse_csv_output csv_output
  = Ok (map (fun row => zip (map Some fieldnames) (map field_value row))
            (List.filter not_blank data)).
Proof.
  intros Hstrip Hread Hnd Hall.
  rewrite (parse_csv_output_rows csv_output fieldnames data None Hstrip Hread).
  by rewrite (convert_rows_regular fieldnames data [] Hnd Hall).
Qed.

Lemma parse_regular_table_witness :
  _parse_csv_output ("entity,coupled,degree" +:+ Sample.nl +:+
                     "file1.java,file2.java,78" +:+ Sample.nl)
  = Ok (map (fun row => zip (map Some ["entity"; "coupled"; "degree"])
                            (map field_value row))
            (List.filter not_blank [["file1.java"; "file2.java"; "78"]])).
Proof.
  apply (parse_regular_table
           ("entity,coupled,degree" +:+ Sample.nl +:+
            "file1.java,file2.java,78" +:+ Sample.nl)
           ["entity"; "coupled"; "degree"] [["file1.java"; "file2.java"; "78"]]).
  - reflexivity.
  - vm_compute. reflexivity.
  - apply (bool_decide_unpack _). vm_compute. exact I.
  - repeat constructor.
Defined.

(** ** Text cells *)

Lemma lstrip_head (sp : ascii -> bool) (s : string) :
  lstrip_by sp s = "" \/ exists c r, lstrip_by sp s = String c r /\ sp c = false.
Proof.
  induction s as [| c r IH]; simpl; [by left |].
  destruct (sp c) eqn:Hc; [exact IH | right; eauto].
Qed.

Lemma rstrip_idempotent (sp : ascii -> bool) (s : string) :
  rstrip_by sp (rstrip_by sp s) = rstrip_by sp s.
Proof.
  induction s as [| c r IH]; simpl; [reflexivity |].
  destruct (sp c && is_empty (rstrip_by sp r)) eqn:Hcond; [reflexivity |].
  simpl. rewrite IH, Hcond. reflexivity.
Qed.

Lemma strip_idempotent (sp : ascii -> bool) (s : string) :
  strip_by sp (strip_by sp s) = strip_by sp s.
Proof.
  unfold strip_by. destruct (lstrip_head sp s) as [-> | (c & r & -> & Hc)];
    [reflexivity |].
  simpl. rewrite Hc. simpl. rewrite Hc. simpl. rewrite Hc. simpl.
  by rewrite rstrip_idempotent.
Qed.

(** A cell that comes out as text is the stripped field: it is not empty,
    stripping it again changes nothing, and neither [int()] nor [float()]
    could read the field. *)
Theorem text_cell_is_stripped (value : Csv.row_value) (s : string) :
  _convert_value value = Ok (PyStr s) ->
  exists field,
    value = Csv.RStr field /\ s = strip field /\ is_empty s = false
    /\ strip s = s /\ py_int field = None /\ py_float field = None.
Proof.
  destruct value as [field | | [| x l]]; try discriminate.
  rewrite convert_value_str. unfold field_value.
  destruct (is_empty (strip field)) eqn:Hempty; [discriminate |].
  destruct (py_int field) eqn:Hint; [discriminate |].
  destruct (py_float field) eqn:Hfloat; [discriminate |].
  intros [= <-]. exists field. repeat split; try assumption.
  apply strip_idempotent.
Qed.

Lemma text_cell_is_stripped_witness :
  exists field,
    Csv.RStr "  src/main.py " = Csv.RStr field /\ "src/main.py" = strip field
    /\ is_empty "src/main.py" = false /\ strip "src/main.py" = "src/main.py"
    /\ py_int field = None /\ py_float field = None.
Proof.
  apply (text_cell_is_stripped (Csv.RStr "  src/main.py ") "src/main.py").
  reflexivity.
Defined.

(** ** Integers printed and read back *)

Lemma digit_char (d : N) :
  (d < 10)%N ->
  is_digit (ascii_of_N (48 + d)) = true
  /\ digit_value (ascii_of_N (48 + d)) = Z.of_N d.
Proof.
  intros Hd.
  assert (Hcases : d = 0%N \/ d = 1%N \/ d = 2%N \/ d = 3%N \/ d = 4%N \/ d = 5%N
                   \/ d = 6%N \/ d = 7%N \/ d = 8%N \/ d = 9%N) by lia.
  repeat (destruct Hcases as [-> | Hcases]; [by vm_compute |]).
  subst d. by vm_compute.
Qed.

Lemma digit_is_no_space (c : ascii) :
  is_digit c = true -> is_space c = false /\ is_numeric_space c = false.
Proof.
  unfold is_digit, is_space, is_numeric_space. generalize (ord c). intros n Hn.
  apply andb_true_iff in Hn as [Hlo Hhi].
  apply Nat.leb_le in Hlo. apply Nat.leb_le in Hhi.
  assert (H1 : (n <=? 13)%nat = false) by (apply Nat.leb_gt; lia).
  assert (H2 : (n =? 32)%nat = false) by (apply Nat.eqb_neq; lia).
  assert (H3 : (n =? 133)%nat = false) by (apply Nat.eqb_neq; lia).
  assert (H4 : (n =? 160)%nat = false) by (apply Nat.eqb_neq; lia).
  assert (H5 : (n <=? 31)%nat = false) by (apply Nat.leb_gt; lia).
  rewrite H1, H2, H3, H4, H5, !andb_false_r. by split.
Qed.

Lemma split_sign_digit (c : ascii) (r : string) :
  is_digit c = true -> split_sign (String c r) = (false, String c r).
Proof.
  destruct c as [[] [] [] [] [] [] [] []]; try reflexivity; vm_compute; discriminate.
Qed.

Lemma strip_none_of (sp : ascii -> bool) (s : string) :
  none_of sp s = true -> strip_by sp s = s.
Proof.
  intros Hs. unfold strip_by.
  assert (Hl : lstrip_by sp s = s).
  { destruct s as [| c r]; [reflexivity |]. simpl in *.
    apply andb_true_iff in Hs as [Hc _]. apply negb_true_iff in Hc. by rewrite Hc. }
  rewrite Hl. clear Hl. induction s as [| c r IH]; [reflexivity |]. simpl in *.
  apply andb_true_iff in Hs as [Hc Hr]. apply negb_true_iff in Hc.
  rewrite Hc, (IH Hr). reflexivity.
Qed.

Lemma digits_of_pos_none_of (sp : ascii -> bool) (fuel : nat) (n : N) (acc : string) :
  (forall c, is_digit c = true -> sp c = false) ->
  none_of sp acc = true -> none_of sp (digits_of_pos fuel n acc) = true.
Proof.
  intros Hsp. revert n acc. induction fuel as [| fuel IH]; intros n acc Hacc;
    [exact Hacc |].
  assert (Hd : none_of sp (String (ascii_of_N (48 + n mod 10)) acc) = true).
  { simpl. rewrite Hacc, (Hsp _ (proj1 (digit_char (n mod 10)
      (N.mod_lt n 10 ltac:(discriminate))))). reflexivity. }
  simpl. destruct (n / 10 =? 0)%N; [exact Hd | by apply IH].
Qed.

(** Reading the digits [digits_of_pos] prints, with enough fuel, adds them
    to the number read so far. *)
Lemma int_digits_printed (fuel : nat) :
  forall (n : N) (rest : string) (seen : nat) (acc : Z),
    (0 < n)%N -> (n < 10 ^ N.of_nat fuel)%N ->
    exists len : nat,
      (10 ^ N.of_nat len <= 10 * n)%N
      /\ int_digits false seen acc (digits_of_pos fuel n rest)
         = int_digits false (seen + len) (acc * 10 ^ Z.of_nat len + Z.of_N n) rest
      /\ exists c r, digits_of_pos fuel n rest = String c r /\ is_digit c = true.
Proof.
  induction fuel as [| fuel IH]; intros n rest seen acc Hpos Hlt.
  { simpl in Hlt. lia. }
  pose proof (N.div_mod n 10 ltac:(discriminate)) as Hdm.
  pose proof (N.mod_lt n 10 ltac:(discriminate)) as Hd.
  destruct (digit_char (n mod 10) Hd) as [Hdig Hval].
  assert (Hqlt : (n / 10 < 10 ^ N.of_nat fuel)%N).
  { rewrite Nat2N.inj_succ, N.pow_succ_r' in Hlt.
    apply N.Div0.div_lt_upper_bound. exact Hlt. }
  cbn [digits_of_pos].
  remember (n / 10)%N as q eqn:Hq. remember (n mod 10)%N as m eqn:Hm.
  clear Hq Hm Hlt. destruct (N.eqb_spec q 0) as [Hq0 | Hq0].
  - exists 1%nat. split; [simpl; lia | split; [| eauto]].
    cbn [int_digits]. rewrite Hdig, Hval. f_equal; [lia |].
    change (10 ^ Z.of_nat 1) with 10. lia.
  - destruct (IH q (String (ascii_of_N (48 + m)) rest) seen acc
                 ltac:(lia) Hqlt) as (len & Hlow & Hread & Hfirst).
    exists (S len). split; [| split; [| exact Hfirst]].
    + rewrite Nat2N.inj_succ, N.pow_succ_r'.
      generalize dependent (10 ^ N.of_nat len)%N. intros; lia.
    + rewrite Hread. cbn [int_digits]. rewrite Hdig, Hval. f_equal; [lia |].
      rewrite Nat2Z.inj_succ, Z.pow_succ_r by lia.
      generalize (10 ^ Z.of_nat len). intros; lia.
Qed.

Lemma str_of_N_fuel (n : N) : (0 < n)%N -> (n < 10 ^ N.of_nat (S (N.to_nat (N.log2 n))))%N.
Proof.
  intros Hpos. rewrite Nat2N.inj_succ, N2Nat.id.
  destruct (N.log2_spec n Hpos) as [_ Hup].
  eapply N.lt_le_trans; [exact Hup |].
  apply N.pow_le_mono_l. lia.
Qed.

Lemma digits_bound (limit len : nat) (n : N) :
  (10 ^ N.of_nat len <= 10 * n)%N -> (Z.of_N n < 10 ^ Z.of_nat limit)%Z ->
  (len <= limit)%nat.
Proof.
  intros Hlow Hsmall.
  assert (Hn : (n < 10 ^ N.of_nat limit)%N).
  { apply N2Z.inj_lt. rewrite N2Z.inj_pow, nat_N_Z. exact Hsmall. }
  assert (Hpow : (10 ^ N.of_nat len < 10 ^ N.succ (N.of_nat limit))%N).
  { rewrite N.pow_succ_r'. eapply N.le_lt_trans; [exact Hlow |].
    apply N.mul_lt_mono_pos_l; [reflexivity | exact Hn]. }
  apply N.pow_lt_mono_r_iff in Hpow; [lia | reflexivity].
Qed.

Lemma py_int_printed (neg : bool) (p : positive) :
  (Z.pos p < 10 ^ Z.of_nat int_max_str_digits)%Z ->
  py_int ((if neg then "-" else "") +:+ str_of_N (N.pos p))
  = Some (if neg then Z.neg p else Z.pos p)
  /\ strip ((if neg then "-" else "") +:+ str_of_N (N.pos p))
     = (if neg then "-" else "") +:+ str_of_N (N.pos p)
  /\ is_empty ((if neg then "-" else "") +:+ str_of_N (N.pos p)) = false.
Proof.
  intros Hsmall. unfold str_of_N.
  destruct (int_digits_printed _ (N.pos p) "" 0%nat 0 ltac:(reflexivity)
              (str_of_N_fuel (N.pos p) ltac:(reflexivity)))
    as (len & Hlow & Hread & c & r & Hshape & Hc).
  set (digits := digits_of_pos (S (N.to_nat (N.log2 (N.pos p)))) (N.pos p) "") in *.
  assert (Hlen : (int_max_str_digits <? len)%nat = false).
  { apply Nat.ltb_ge. exact (digits_bound _ _ _ Hlow Hsmall). }
  assert (Hnum : none_of is_numeric_space digits = true).
  { apply digits_of_pos_none_of; [| reflexivity].
    intros c' Hc'. by apply digit_is_no_space. }
  assert (Hsp : none_of is_space digits = true).
  { apply digits_of_pos_none_of; [| reflexivity].
    intros c' Hc'. by apply digit_is_no_space. }
  rewrite Z.mul_0_l, Z.add_0_l, Nat.add_0_l in Hread.
  destruct neg.
  - change ("-" +:+ digits) with (String "-" digits). repeat split.
    + unfold py_int. rewrite strip_none_of by (simpl; by rewrite Hnum).
      cbn [split_sign]. rewrite Hshape, Hc, <- Hshape, Hread. cbn [int_digits].
      rewrite Hlen. reflexivity.
    + unfold strip. apply strip_none_of. simpl. by rewrite Hsp.
  - rewrite append_nil. repeat split.
    + unfold py_int. rewrite (strip_none_of _ _ Hnum), Hshape.
      rewrite (split_sign_digit c r Hc), Hc, <- Hshape, Hread. cbn [int_digits].
      rewrite Hlen. reflexivity.
    + unfold strip. by apply strip_none_of.
    + by rewrite Hshape.
Qed.

(** An integer that [int()] accepts by its number of digits (at most
    [sys.get_int_max_str_digits()]), printed by [str] as the command builder
    prints parameter values, is read back by [_convert_value] as the same
    integer. *)
Theorem int_cell_round_trip (z : Z) :
  (Z.abs z < 10 ^ Z.of_nat int_max_str_digits)%Z ->
  _convert_value (Csv.RStr (py_str (PInt z))) = Ok (PyInt z).
Proof.
  intros Hsmall. rewrite convert_value_str. cbn [py_str]. unfold field_value.
  destruct z as [| p | p]; [reflexivity | |].
  - destruct (py_int_printed false p Hsmall) as (Hint & Hstrip & Hne).
    rewrite append_nil in *. cbn [str_of_int].
    by rewrite Hstrip, Hne, Hint.
  - destruct (py_int_printed true p Hsmall) as (Hint & Hstrip & Hne).
    cbn [str_of_int]. by rewrite Hstrip, Hne, Hint.
Qed.

Lemma int_cell_round_trip_witness :
  _convert_value (Csv.RStr (py_str (PInt (-919)))) = Ok (PyInt (-919)).
Proof.
  apply (int_cell_round_trip (-919)). vm_compute. reflexivity.
Defined.

(** ** The command of [generate_git_log] *)

(** Any format other than ["git2"] is taken for the ["git"] format. *)
Theorem git_log_cmd_format_fallback
        (format_type : string) (after_date : option string)
        (exclude_paths : option (list string)) :
  format_type <> "git2" ->
  git_log_cmd format_type after_date exclude_paths
  = git_log_cmd "git" after_date exclude_paths.
Proof.
  intros Hne. unfold git_log_cmd. apply String.eqb_neq in Hne. rewrite Hne.
  reflexivity.
Qed.

Lemma git_log_cmd_format_fallback_witness :
  git_log_cmd "svn" (Some "2024-01-01") None
  = git_log_cmd "git" (Some "2024-01-01") None.
Proof.
  apply (git_log_cmd_format_fallback "svn" (Some "2024-01-01") None). discriminate.
Defined.

(** An empty date and an empty list of exclusions filter nothing, like
    [None]; a date adds the one token [--after=<date>]; exclusions come last,
    after [--] and [.], one [:(exclude)<path>] token per path in the order
    given. *)
Theorem git_log_cmd_filters
        (format_type : string) (after_date : option string)
        (exclude_paths : option (list string)) :
  git_log_cmd format_type (Some "") exclude_paths
  = git_log_cmd format_type None exclude_paths
  /\ git_log_cmd format_type after_date (Some [])
     = git_log_cmd format_type after_date None
  /\ (forall c d,
        git_log_cmd format_type (Some (String c d)) None
        = git_log_cmd format_type None None ++ ["--after=" +:+ String c d])
  /\ (forall p ps,
        git_log_cmd format_type after_date (Some (p :: ps))
        = git_log_cmd format_type after_date None
          ++ ["--"; "."] ++ map (fun path => ":(exclude)" +:+ path) (p :: ps)).
Proof. repeat split. Qed.

(** ** [generate_git_log] as a whole *)

Lemma generate_git_log_outcomes
      (h : host) (repo_path output_file format_type : string)
      (after_date : option string) (exclude_paths : option (list string))
      (w : world) :
  let run := generate_git_log h repo_path output_file format_type after_date
                              exclude_paths w in
  let cmd := git_log_cmd format_type after_date exclude_paths in
  let called :=
    {| fs := fs w;
       invocations := invocations w ++
         [{| inv_args := cmd; inv_cwd := Some repo_path; inv_timeout := None |}] |} in
  (exists msg, run = (Raised (CodeMaatError msg), w))
  \/ (exists msg, run = (Raised (CodeMaatError msg), called))
  \/ (exists t text err,
        process h cmd (Some repo_path) = Exits t 0 text err
        /\ run = (Returned output_file,
                  {| fs := <[output_file := File text]> (fs w);
                     invocations := invocations called |}))
  \/ (run = (Raised (IsADirectoryError output_file), called))
  \/ (run = (Raised (PermissionError output_file), called))
  \/ (process h cmd (Some repo_path) = Never_exits /\ run = (Blocked, called))
  \/ (exists e, process h cmd (Some repo_path) = Cannot_start e
                /\ run = (Raised e, called)).
Proof.
  cbv zeta. destruct (fs w !! repo_path) as [node |] eqn:Hrepo.
  2: { left. eexists. by apply generate_git_log_missing. }
  rewrite (generate_git_log_found h repo_path output_file format_type after_date
             exclude_paths w) by (rewrite Hrepo; by eexists).
  right. unfold try_except, bind, subprocess_run, write_text, ret, raise.
  destruct (process h (git_log_cmd format_type after_date exclude_paths)
                    (Some repo_path)) as [t rc text err | | e0].
  - destruct (Z.eqb_spec rc 0) as [-> | Hrc]; [| left; eexists; reflexivity].
    cbn [stdout fs]. right.
    destruct (fs w !! output_file) as [[text' |] |].
    + destruct (denied h output_file); [right; right; by left |].
      left. exists t, text, err. by split.
    + right. by left.
    + destruct (denied h output_file); [right; right; by left |].
      left. exists t, text, err. by split.
  - right. right. right. right. by left.
  - destruct e0;
      try (right; right; right; right; right; eexists; split; reflexivity);
      left; eexists; reflexivity.
Qed.

(** [generate_git_log] can change no file but the output file. *)
Theorem generate_git_log_frame
        (h : host) (repo_path output_file format_type : string)
        (after_date : option string) (exclude_paths : option (list string))
        (w : world) (other : string) :
  other <> output_file ->
  fs (snd (generate_git_log h repo_path output_file format_type after_date
                            exclude_paths w)) !! other
  = fs w !! other.
Proof.
  intros Hne.
  destruct (generate_git_log_outcomes h repo_path output_file format_type
              after_date exclude_paths w)
    as [(msg & ->) | [(msg & ->) | [(t & text & err & _ & ->)
        | [-> | [-> | [(_ & ->) | (e & _ & ->)]]]]]];
    cbn [snd fs]; try reflexivity.
  apply lookup_insert_ne. congruence.
Qed.

Lemma generate_git_log_frame_witness :
  fs (snd (generate_git_log Sample.sample_host "/srv/repo" "/srv/out.log" "git2"
                            None None Sample.sample_world)) !! "/srv/history.log"
  = fs Sample.sample_world !! "/srv/history.log".
Proof.
  apply (generate_git_log_frame Sample.sample_host "/srv/repo" "/srv/out.log" "git2"
           None None Sample.sample_world "/srv/history.log").
  discriminate.
Defined.

(** The client runs without a time limit: when it never exits, neither
    does [generate_git_log] return or raise, and no file is written. *)
Theorem generate_git_log_waits_forever
        (h : host) (repo_path output_file format_type : string)
        (after_date : option string) (exclude_paths : option (list string))
        (w : world) :
  is_Some (fs w !! repo_path) ->
  process h (git_log_cmd format_type after_date exclude_paths) (Some repo_path)
  = Never_exits ->
  fst (generate_git_log h repo_path output_file format_type after_date
                        exclude_paths w) = Blocked
  /\ fs (snd (generate_git_log h repo_path output_file format_type after_date
                               exclude_paths w)) = fs w.
Proof.
  intros Hrepo Hproc.
  rewrite (generate_git_log_found h repo_path output_file format_type after_date
             exclude_paths w Hrepo).
  unfold try_except, bind, subprocess_run. rewrite Hproc. by split.
Qed.

Lemma generate_git_log_waits_forever_witness :
  fst (generate_git_log Sample.hanging_host "/srv/repo" "/srv/out.log" "git2"
                        None None Sample.sample_world) = Blocked
  /\ fs (snd (generate_git_log Sample.hanging_host "/srv/repo" "/srv/out.log" "git2"
                               None None Sample.sample_world))
     = fs Sample.sample_world.
Proof.
  apply (generate_git_log_waits_forever Sample.hanging_host "/srv/repo"
           "/srv/out.log" "git2" None None Sample.sample_world).
  - vm_compute. eexists. reflexivity.
  - reflexivity.
Defined.



(** ** The tokens [_add_optional_params] appends *)

(** [_add_optional_params] only appends: the command it is given stays in
    front unchanged, the tokens added do not depend on it, and there are two
    of them for every recognized parameter that is not [None], plus one when
    [verbose_results] is truthy. *)
Theorem add_optional_params_appends
        (cmd : list string) (kwargs : Dict.dict string param_value) :
  _add_optional_params cmd kwargs = cmd ++ _add_optional_params [] kwargs
  /\ length (_add_optional_params cmd kwargs)
     = (length cmd
        + 2 * length (List.filter (fun item => negb (is_empty_list (item_tokens item)))
                                  kwargs)
        + length (verbose_flag kwargs))%nat.
Proof.
  split.
  - rewrite !add_optional_params_eq. reflexivity.
  - assert (Hvalued : length (valued_flags kwargs)
                      = (2 * length (List.filter
                                       (fun item => negb (is_empty_list (item_tokens item)))
                                       kwargs))%nat).
    { unfold valued_flags. induction kwargs as [| item rest IH]; [reflexivity |].
      cbn [flat_map List.filter]. rewrite length_app, IH.
      destruct (item_tokens item) as [| flag [| value more]] eqn:Htokens;
        cbn [is_empty_list negb length]; try lia.
      - unfold item_tokens in Htokens.
        destruct (Dict.get (fst item) param_mapping);
          [destruct (is_None (snd item)) |]; discriminate.
      - unfold item_tokens in Htokens.
        destruct (Dict.get (fst item) param_mapping);
          [destruct (is_None (snd item)) |]; try discriminate.
        injection Htokens as _ _ <-. cbn [length]. lia. }
    rewrite add_optional_params_eq, !length_app, Hvalued. lia.
Qed.

(** ** Constructing the wrapper *)

Lemma sound_absolute_rooted (p : PosixPath.path) :
  sound p -> PosixPath.is_absolute p = true -> rooted p.
Proof.
  intros [[Hroot | Hroot] Hparts] Habs; [| by split].
  apply is_absolute_root in Hroot. congruence.
Qed.

Lemma resolved_jar_rooted (h : host) (cfg : CodeMaatConfig) :
  rooted (resolved_jar h cfg).
Proof.
  destruct (PosixPath.is_absolute (PosixPath.of_str (jar_path cfg))) eqn:Habs.
  - unfold resolved_jar. rewrite Habs. cbn [negb].
    apply sound_absolute_rooted; [apply of_str_sound | exact Habs].
  - by apply resolved_jar_relative.
Qed.

Lemma load_config_frame (h : host) (config_path : option string) (w : world) :
  snd (_load_config h config_path w) = w.
Proof.
  unfold _load_config, try_except, bind, read_text.
  destruct (fs w !! config_file h config_path) as [[text |] |]; try reflexivity.
  destruct (denied h (config_file h config_path)); [reflexivity |].
  destruct (json_loads h text); reflexivity.
Qed.

(** A wrapper that has been constructed holds an absolute engine path at
    which something exists; constructing it changed nothing, and validating
    its configuration again gives the same configuration. *)
Theorem init_postcondition
        (h : host) (config_path : option string) (w w' : world)
        (self : CodeMaatWrapper) :
  __init__ h config_path w = (Returned self, w') ->
  w' = w
  /\ is_Some (fs w !! jar_path (config self))
  /\ PosixPath.is_absolute (PosixPath.of_str (jar_path (config self))) = true
  /\ _validate_config h (config self) w = (Returned (config self), w).
Proof.
  unfold __init__. unfold bind at 1.
  pose proof (load_config_frame h config_path w) as Hframe.
  destruct (_load_config h config_path w) as [[cfg | e |] w1]; try discriminate.
  cbn [snd] in Hframe. subst w1. unfold bind. rewrite validate_config_run.
  destruct (bool_decide (is_Some (fs w !! PosixPath.to_str (resolved_jar h cfg))))
    eqn:Hfound; [| discriminate].
  apply bool_decide_eq_true_1 in Hfound. unfold ret. intros [= <- <-].
  cbn [config jar_path]. pose proof (resolved_jar_rooted h cfg) as Hrooted.
  split; [reflexivity | split; [exact Hfound | split]].
  - rewrite (of_str_to_str _ Hrooted). by apply rooted_absolute.
  - rewrite validate_config_run.
    rewrite (resolved_jar_settled h
               {| jar_path := PosixPath.to_str (resolved_jar h cfg);
                  java_executable := java_executable cfg;
                  java_opts := java_opts cfg |}
               (resolved_jar h cfg) Hrooted eq_refl).
    by rewrite (bool_decide_eq_true_2 _ Hfound).
Qed.

Lemma init_postcondition_witness :
  Sample.sample_world = Sample.sample_world
  /\ is_Some (fs Sample.sample_world !! jar_path (config Sample.sample_wrapper))
  /\ PosixPath.is_absolute
       (PosixPath.of_str (jar_path (config Sample.sample_wrapper))) = true
  /\ _validate_config Sample.sample_host (config Sample.sample_wrapper)
                      Sample.sample_world
     = (Returned (config Sample.sample_wrapper), Sample.sample_world).
Proof.
  apply (init_postcondition Sample.sample_host None Sample.sample_world
           Sample.sample_world Sample.sample_wrapper).
  vm_compute. reflexivity.
Defined.


(** ** [get_analysis_info] *)

(** Whatever analysis is asked about, known or not, the description has
    the same three keys in the same order, and the description and the use
    case are text. *)
Theorem get_analysis_info_shape (analysis : string) :
  Dict.keys (get_analysis_info analysis)
  = ["description"; "output_columns"; "use_case"]
  /\ (exists d, Dict.get "description" (get_analysis_info analysis) = Some (IStr d)
                /\ is_empty d = false)
  /\ (exists u, Dict.get "use_case" (get_analysis_info analysis) = Some (IStr u)).
Proof.
  unfold get_analysis_info, analysis_info. cbn [Dict.get].
  repeat (case_decide; [cbn [default]; repeat split; eexists; split; reflexivity |]).
  cbn [default]. repeat split; eexists; split; reflexivity.
Qed.

(** ** [_validate_log_format] *)

Lemma count_double_dash_cons (c : ascii) (s : string) :
  (count_double_dash s <= count_double_dash (String c s)
   /\ count_double_dash (String c s) <= S (count_double_dash s))%nat.
Proof.
  revert c. induction s as [| b r IH]; intros c; [simpl; lia |].
  change (count_double_dash (String c (String b r)))
    with (if (c =? "-")%char && (b =? "-")%char
          then S (count_double_dash r) else count_double_dash (String b r)).
  destruct ((c =? "-")%char && (b =? "-")%char); [| lia].
  destruct (IH b). lia.
Qed.

Lemma count_double_dash_app (x y : string) :
  (count_double_dash x + count_double_dash y <= count_double_dash (x +:+ y))%nat.
Proof.
  assert (Hboth : forall x,
            (count_double_dash x + count_double_dash y
             <= count_double_dash (x +:+ y))%nat
            /\ forall c,
                 (count_double_dash (String c x) + count_double_dash y
                  <= count_double_dash (String c x +:+ y))%nat).
  { clear x. induction x as [| b r [IH0 IH1]].
    - split; [rewrite append_nil; simpl; lia |].
      intros c. rewrite append_cons, append_nil.
      destruct (count_double_dash_cons c y).
      change (count_double_dash (String c "")) with 0%nat. lia.
    - split; [apply IH1 |]. intros c. rewrite !append_cons.
      change (count_double_dash (String c (String b r)))
        with (if (c =? "-")%char && (b =? "-")%char
              then S (count_double_dash r) else count_double_dash (String b r)).
      change (count_double_dash (String c (String b (r +:+ y))))
        with (if (c =? "-")%char && (b =? "-")%char
              then S (count_double_dash (r +:+ y))
              else count_double_dash (String b (r +:+ y))).
      destruct ((c =? "-")%char && (b =? "-")%char); [lia |].
      rewrite <- append_cons. apply IH1. }
  apply Hboth.
Qed.

Lemma contains_app (x y sub : string) : contains y sub = true -> contains (x +:+ y) sub = true.
Proof.
  intros Hy. induction x as [| c r IH]; [exact Hy |].
  rewrite append_cons. cbn [contains]. rewrite IH. apply orb_true_r.
Qed.

Lemma existsb_member {A} (f : A -> bool) (x : A) (l : list A) :
  x ∈ l -> f x = true -> existsb f l = true.
Proof.
  intros Hin Hf. apply existsb_exists. exists x. split; [| exact Hf].
  by apply list_elem_of_In.
Qed.

Lemma lines_not_blank (line : string) (lines : list string) :
  line ∈ lines -> is_empty line = false ->
  is_empty_list lines || forallb is_empty lines = false.
Proof.
  intros Hin Hline. destruct lines as [| l ls]; [by apply elem_of_nil in Hin |].
  cbn [is_empty_list orb]. apply not_true_is_false. intros Hall.
  rewrite forallb_forall in Hall. apply list_elem_of_In in Hin.
  rewrite (Hall line Hin) in Hline. discriminate.
Qed.

(** Lines without content are reported unreadable whatever the VCS kind,
    and a kind other than [git2], [git] and [svn] passes on any content:
    its format is not looked at. *)
Theorem validate_log_format_unchecked (lines : list string) (vcs : string) :
  (is_empty_list lines || forallb is_empty lines = true ->
     _validate_log_format lines vcs
     = (CrossMark, " File appears to be empty or unreadable"))
  /\ (is_empty_list lines || forallb is_empty lines = false ->
        vcs <> "git2" -> vcs <> "git" -> vcs <> "svn" ->
        _validate_log_format lines vcs
        = (InfoSign, "  Basic validation passed for " +:+ vcs +:+ " format")).
Proof.
  unfold _validate_log_format. split.
  - intros ->. reflexivity.
  - intros -> H2 H1 H0. apply String.eqb_neq in H2, H1, H0.
    by rewrite H2, H1, H0.
Qed.

Lemma validate_log_format_unchecked_witness :
  _validate_log_format ["changeset: 1"; ""] "hg"
  = (InfoSign, "  Basic validation passed for " +:+ "hg" +:+ " format").
Proof.
  apply (proj2 (validate_log_format_unchecked ["changeset: 1"; ""] "hg"));
    [reflexivity | discriminate | discriminate | discriminate].
Defined.

(** The commit lines of the two formats [generate_git_log] asks the client
    for are recognized: a line [--<hash>--<date>--<author>] makes a log pass
    as [git2], and a line [[<hash>] <rest>] makes it pass as [git], whatever
    the hash, date, author and the other lines are. *)
Theorem validate_log_format_accepts_generated
        (lines : list string) (hash date author rest : string) :
  ("--" +:+ hash +:+ "--" +:+ date +:+ "--" +:+ author ∈ lines ->
     _validate_log_format lines "git2" = (CheckMark, " Git2 format detected"))
  /\ ("[" +:+ hash +:+ "] " +:+ rest ∈ lines ->
        _validate_log_format lines "git" = (CheckMark, " Git format detected")).
Proof.
  unfold _validate_log_format. split; intros Hin.
  - rewrite (lines_not_blank _ lines Hin) by reflexivity. cbn [String.eqb Ascii.eqb].
    change ("git2" =? "git2")%string with true. cbv iota.
    rewrite (existsb_member _ _ lines Hin); [reflexivity |].
    apply andb_true_iff. split; [reflexivity |]. apply Nat.leb_le.
    pose proof (count_double_dash_app "--" (hash +:+ "--" +:+ date +:+ "--" +:+ author)).
    pose proof (count_double_dash_app hash ("--" +:+ date +:+ "--" +:+ author)).
    pose proof (count_double_dash_app "--" (date +:+ "--" +:+ author)).
    pose proof (count_double_dash_app date ("--" +:+ author)).
    pose proof (count_double_dash_app "--" author).
    change (count_double_dash "--") with 1%nat in *. lia.
  - rewrite (lines_not_blank _ lines Hin) by reflexivity.
    change ("git" =? "git2")%string with false.
    change ("git" =? "git")%string with true. cbv iota.
    rewrite (existsb_member _ _ lines Hin); [reflexivity |].
    apply andb_true_iff. split; [reflexivity |].
    change ("[" +:+ hash +:+ "] " +:+ rest) with ("[" +:+ (hash +:+ "] " +:+ rest)).
    apply contains_app, contains_app. reflexivity.
Qed.

Lemma validate_log_format_accepts_generated_witness :
  _validate_log_format [""; "--a1b2c3--2024-01-01--dev"; "1" +:+ String "009" "2"] "git2"
  = (CheckMark, " Git2 format detected").
Proof.
  apply (proj1 (validate_log_format_accepts_generated
                  [""; "--a1b2c3--2024-01-01--dev"; "1" +:+ String "009" "2"]
                  "a1b2c3" "2024-01-01" "dev" "")).
  apply list_elem_of_further, list_elem_of_here.
Defined.

(** ** What the tools pass on *)

(** The coupling tool always passes its four thresholds, in the order
    [-i], [-x], [-n], [-s] and with 30, 100, 5 and 30 for those the caller
    left out; it never asks for verbose results. *)
Theorem coupling_tool_command
        (self : CodeMaatWrapper) (log_file vcs : string)
        (arguments : Dict.dict string param_value) :
  let value name fallback := default (PInt fallback) (Dict.get name arguments) in
  let flag name fallback text :=
    if is_None (value name fallback) then []
    else [text; py_str (value name fallback)] in
  analysis_cmd self log_file vcs "coupling" (coupling_kwargs arguments)
  = cmd_head (config self) log_file vcs "coupling"
    ++ flag "min_coupling" 30 "-i" ++ flag "max_coupling" 100 "-x"
    ++ flag "min_revs" 5 "-n" ++ flag "max_changeset_size" 30 "-s".
Proof.
  cbv zeta. unfold analysis_cmd. fold (cmd_head (config self) log_file vcs "coupling").
  rewrite add_optional_params_eq. f_equal. unfold coupling_kwargs, valued_flags.
  cbn [flat_map]. unfold item_tokens, verbose_flag. cbn [fst snd].
  change (Dict.get "min_coupling" param_mapping) with (Some "-i").
  change (Dict.get "max_coupling" param_mapping) with (Some "-x").
  change (Dict.get "min_revs" param_mapping) with (Some "-n").
  change (Dict.get "max_changeset_size" param_mapping) with (Some "-s").
  cbn [Dict.get]. repeat (rewrite decide_False by discriminate).
  cbn [default truthy]. rewrite !app_nil_r. reflexivity.
Qed.

(** The authors tool passes [-n] (5 unless the caller says otherwise) and
    passes [-r] only when the caller gave [rows] a value other than [None]. *)
Theorem authors_tool_command
        (self : CodeMaatWrapper) (log_file vcs : string)
        (arguments : Dict.dict string param_value) :
  let min_revs := default (PInt 5) (Dict.get "min_revs" arguments) in
  analysis_cmd self log_file vcs "authors" (authors_kwargs arguments)
  = cmd_head (config self) log_file vcs "authors"
    ++ (if is_None min_revs then [] else ["-n"; py_str min_revs])
    ++ match Dict.get "rows" arguments with
       | Some rows => if is_None rows then [] else ["-r"; py_str rows]
       | None => []
       end.
Proof.
  cbv zeta. unfold analysis_cmd. fold (cmd_head (config self) log_file vcs "authors").
  rewrite add_optional_params_eq. f_equal. unfold authors_kwargs.
  destruct (Dict.get "rows" arguments) as [rows |].
  - cbn [Dict.set]. rewrite decide_False by discriminate.
    unfold valued_flags, verbose_flag. cbn [flat_map]. unfold item_tokens. cbn [fst snd].
    change (Dict.get "min_revs" param_mapping) with (Some "-n").
    change (Dict.get "rows" param_mapping) with (Some "-r").
    cbn [Dict.get]. repeat (rewrite decide_False by discriminate).
    cbn [default truthy]. rewrite !app_nil_r. reflexivity.
  - unfold valued_flags, verbose_flag. cbn [flat_map]. unfold item_tokens. cbn [fst snd].
    change (Dict.get "min_revs" param_mapping) with (Some "-n").
    cbn [Dict.get]. repeat (rewrite decide_False by discriminate).
    cbn [default truthy]. rewrite !app_nil_r. reflexivity.
Qed.

(** ** From generating a log to analysing it *)

(** A log that [generate_git_log] has returned exists when it returns, so
    [validate_inputs] accepts it as log file for every supported VCS kind and
    analysis kind. *)
Theorem generated_log_is_accepted
        (h : host) (repo_path output_file format_type : string)
        (after_date : option string) (exclude_paths : option (list string))
        (w w' : world) (log_file vcs analysis : string) :
  generate_git_log h repo_path output_file format_type after_date exclude_paths w
  = (Returned log_file, w') ->
  vcs ∈ SUPPORTED_VCS -> analysis ∈ SUPPORTED_ANALYSES ->
  log_file = output_file
  /\ validate_inputs h log_file vcs analysis w' = (Returned true, w').
Proof.
  intros Hrun Hvcs Han.
  destruct (generate_git_log_outcomes h repo_path output_file format_type
              after_date exclude_paths w)
    as [(msg & Heq) | [(msg & Heq) | [(t & text & err & _ & Heq)
        | [Heq | [Heq | [(_ & Heq) | (e & _ & Heq)]]]]]];
    rewrite Heq in Hrun; try discriminate.
  injection Hrun as <- <-. split; [reflexivity |].
  apply validate_inputs_ok; [| exact Hvcs | exact Han].
  cbn [fs]. rewrite lookup_insert_eq. by eexists.
Qed.

Lemma generated_log_is_accepted_witness :
  "/srv/out.log" = "/srv/out.log"
  /\ validate_inputs Sample.sample_host "/srv/out.log" "git2" "summary"
       (snd (generate_git_log Sample.sample_host "/srv/repo" "/srv/out.log" "git2"
                              None None Sample.sample_world))
     = (Returned true,
        snd (generate_git_log Sample.sample_host "/srv/repo" "/srv/out.log" "git2"
                              None None Sample.sample_world)).
Proof.
  apply (generated_log_is_accepted Sample.sample_host "/srv/repo" "/srv/out.log"
           "git2" None None Sample.sample_world).
  - reflexivity.
  - apply (bool_decide_eq_true_1 _). vm_compute. reflexivity.
  - apply (bool_decide_eq_true_1 _). vm_compute. reflexivity.
Defined.

(** ** Output the reader gives up on *)

Lemma convert_rows_reader_error (fieldnames : list string)
      (rows : list (list string)) (msg : string)
      (acc : list (Dict.dict (option string) pyvalue)) :
  Forall (fun row => (length row <= length fieldnames)%nat) rows ->
  convert_rows fieldnames rows (Some msg) acc = Raise (CsvError msg).
Proof.
  intros Hall. revert acc.
  induction Hall as [| row rest Hrow Hrest IH]; intros acc; simpl; [reflexivity |].
  destruct (Csv.is_blank row); [apply IH |].
  destruct (dict_row_plain fieldnames row Hrow) as [Hplain _].
  destruct (convert_items_plain _ [] Hplain) as [rec Hrec]. rewrite Hrec. simpl.
  apply IH.
Qed.

(** When the reader stops with an error, the rows it had yielded before
    are not returned: the parse raises the parse [CodeMaatError], which
    carries the reader's message. *)
Theorem parse_reader_error
        (csv_output : string) (fieldnames : list string)
        (data : list (list string)) (msg : string) :
  is_empty (strip csv_output) = false ->
  Csv.read csv_output = (fieldnames :: data, Some msg) ->
  Forall (fun row => (length row <= length fieldnames)%nat) data ->
  _parse_csv_output csv_output
  = Raise (CodeMaatError ("Failed to parse CSV output: " +:+ msg)).
Proof.
  intros Hstrip Hread Hfit.
  rewrite (parse_csv_output_rows csv_output fieldnames data (Some msg) Hstrip Hread).
  by rewrite (convert_rows_reader_error fieldnames data msg [] Hfit).
Qed.

Lemma parse_reader_error_witness :
  _parse_csv_output ("entity,n-revs" +:+ Sample.nl +:+ "a.py,3" +:+ Sample.nl +:+
                     "b.py" +:+ String "013" "" +:+ ",4" +:+ Sample.nl)
  = Raise (CodeMaatError
             ("Failed to parse CSV output: " +:+
              "new-line character seen in unquoted field - do you need to open the file with newline=''?")).
Proof.
  apply (parse_reader_error
           ("entity,n-revs" +:+ Sample.nl +:+ "a.py,3" +:+ Sample.nl +:+
            "b.py" +:+ String "013" "" +:+ ",4" +:+ Sample.nl)
           ["entity"; "n-revs"] [["a.py"; "3"]]).
  - reflexivity.
  - vm_compute. reflexivity.
  - repeat constructor.
Defined.
